(** * BlogController: the admin CRUD handlers of the Blog entity

    A shallow embedding of [src/controller/admin/BlogController.js].

    Every exported handler is an [async (req, res) => { try { ... } catch
    (error) { ... } }] function that reads the request, calls collaborators
    (the validation service, the [Blog] model constructor, [ObjectId.isValid]
    and the generic [dbService]) and answers through a helper of [res].

    The embedding keeps that shape:
    - JavaScript values are an inductive type, objects are finite maps;
    - a handler is a computation in a monad that threads the state of the
      document store, records every collaborator call and every response
      helper call in a chronological trace, and may throw;
    - the helpers of [res] are a parameter of the handler, as [res] is in
      the source: a helper call is recorded and then returns or throws;
      [run] is the run with helpers that return, [run_with] the run with
      any helpers;
    - the collaborators are not part of the controller: they are a parameter
      of every handler (an arbitrary, possibly throwing, possibly state
      changing function per operation). *)

From stdpp Require Import gmap strings list fin_maps pretty.

#[local] Set Warnings "-register-all".
#[local] Open Scope string_scope.
#[local] Open Scope Z_scope.

(** ** JavaScript values *)

Module JS.

(** Numbers are only compared with [11000], tested for truthiness and
    produced by [length], so they are kept as integers. *)
Inductive value : Type :=
| VUndef
| VNull
| VBool (b : bool)
| VNum (n : Z)
| VStr (s : string)
| VArr (l : list value)
| VObj (o : gmap string value).

(** The outcome of an expression or of an awaited call: a value, or a
    thrown value (in JavaScript anything can be thrown). *)
Inductive result (A : Type) : Type :=
| Ret (a : A)
| Throw (e : value).
Arguments Ret {A} a.
Arguments Throw {A} e.

(** [!v] is [negb (truthy v)]. *)
Definition truthy (v : value) : bool :=
  match v with
  | VUndef | VNull => false
  | VBool b => b
  | VNum n => negb (n =? 0)
  | VStr s => negb (String.eqb s "")
  | VArr _ | VObj _ => true
  end.

(** [typeof v === 'object' && v !== null] *)
Definition is_object (v : value) : bool :=
  match v with
  | VArr _ | VObj _ => true
  | _ => false
  end.

(** [Array.isArray(v)] *)
Definition is_array (v : value) : bool :=
  match v with
  | VArr _ => true
  | _ => false
  end.

(** [v === s] for a string literal [s], [v === n] for a number literal. *)
Definition is_str (v : value) (s : string) : bool :=
  match v with
  | VStr t => String.eqb t s
  | _ => false
  end.

Definition is_num (v : value) (n : Z) : bool :=
  match v with
  | VNum m => m =? n
  | _ => false
  end.

(** The own enumerable index properties of an array: ["0"], ["1"], ... *)
Definition index_props (l : list value) : gmap string value :=
  list_to_map (imap (fun i x => (pretty i, x)) l).

Definition chars (s : string) : list value :=
  (fun a => VStr (String a EmptyString)) <$> String.list_ascii_of_string s.

(** The engine's [TypeError]; the message texts are those of V8. *)
Definition type_error (msg : string) : value :=
  VObj (<["name" := VStr "TypeError"]> (<["message" := VStr msg]> ∅)).

(** [v.k] and [v[k]]: reading a property of [undefined] or [null] throws,
    a primitive has no own property but the indices and the length of a
    string. Members inherited from a prototype are not modelled; of the
    names this controller reads only [filter] is one (on arrays), and there
    the function found is spread into an empty object, which is also what
    the missing property gives. *)
Definition get_prop (v : value) (k : string) : result value :=
  match v with
  | VUndef =>
      Throw (type_error
        ("Cannot read properties of undefined (reading '" +:+ k +:+ "')"))
  | VNull =>
      Throw (type_error
        ("Cannot read properties of null (reading '" +:+ k +:+ "')"))
  | VBool _ | VNum _ => Ret VUndef
  | VStr s =>
      if String.eqb k "length" then Ret (VNum (Z.of_nat (String.length s)))
      else Ret (default VUndef (index_props (chars s) !! k))
  | VArr l =>
      if String.eqb k "length" then Ret (VNum (Z.of_nat (length l)))
      else Ret (default VUndef (index_props l !! k))
  | VObj o => Ret (default VUndef (o !! k))
  end.

(** [{ ...v }]: the own enumerable properties; nothing for [undefined],
    [null], booleans and numbers. *)
Definition spread_obj (v : value) : gmap string value :=
  match v with
  | VObj o => o
  | VArr l => index_props l
  | VStr s => index_props (chars s)
  | _ => ∅
  end.

(** [[ ...v ]]: only iterables can be spread into an array; [expr] is the
    text of the spread expression, which the engine quotes in its error. *)
Definition spread_arr (expr : string) (v : value) : result (list value) :=
  match v with
  | VArr l => Ret l
  | VStr s => Ret (chars s)
  | _ => Throw (type_error (expr +:+ " is not iterable"))
  end.

(** [delete v[k]], for a key that is not an index: the object [v] itself is
    changed, so the changed value is returned. *)
Definition delete_prop (v : value) (k : string) : result value :=
  match v with
  | VUndef =>
      Throw (type_error
        ("Cannot convert undefined or null to object"))
  | VNull =>
      Throw (type_error
        ("Cannot convert undefined or null to object"))
  | VObj o => Ret (VObj (delete k o))
  | _ => Ret v
  end.

(** [`${v}`] in a template literal. A number is printed in decimal, also
    from 1e21 on, where JavaScript turns to the exponent form. *)
Fixpoint to_string (v : value) : string :=
  match v with
  | VUndef => "undefined"
  | VNull => "null"
  | VBool true => "true"
  | VBool false => "false"
  | VNum n => pretty n
  | VStr s => s
  | VArr l =>
      String.concat ","
        (List.map (fun x => match x with
                            | VUndef | VNull => ""
                            | _ => to_string x
                            end) l)
  | VObj _ => "[object Object]"
  end.

(** Object literals with one and two properties. *)
Definition obj1 (k : string) (v : value) : value :=
  VObj (<[k := v]> ∅).

Definition obj2 (k1 : string) (v1 : value) (k2 : string) (v2 : value) : value :=
  VObj (<[k2 := v2]> (<[k1 := v1]> ∅)).

End JS.

Export JS.

(** ** Collaborators, events and the handler monad *)

(** The operations the controller calls on its collaborators:
    [validation.*], [new Blog(_)], [ObjectId.isValid] and [dbService.*]. *)
Inductive op : Type :=
| validateParamsWithJoi
| validateFilterWithJoi
| newBlog
| ObjectId_isValid
| createDocument
| countDocument
| getAllDocuments
| bulkUpdate
| bulkInsert
| deleteMany
| findOneAndUpdateDocument
| getSingleDocument
| findOneAndDeleteDocument.

(** The response helpers attached to [res]. *)
Inductive response : Type :=
| success
| validationError
| internalServerError
| recordNotFound
| badRequest.

(** What a run of a handler does to the outside world, in order. A helper
    called without argument is recorded with payload [VUndef]. *)
Inductive event : Type :=
| Call (o : op) (args : list value)
| Reply (r : response) (payload : value).

(** The operations of [dbService], the document store. *)
Definition is_store_op (o : op) : bool :=
  match o with
  | createDocument | countDocument | getAllDocuments | bulkUpdate
  | bulkInsert | deleteMany | findOneAndUpdateDocument | getSingleDocument
  | findOneAndDeleteDocument => true
  | _ => false
  end.

Definition is_delete_op (o : op) : bool :=
  match o with
  | deleteMany | findOneAndDeleteDocument => true
  | _ => false
  end.

Definition is_update_op (o : op) : bool :=
  match o with
  | bulkUpdate | findOneAndUpdateDocument => true
  | _ => false
  end.

Definition is_store_call (e : event) : bool :=
  match e with
  | Call o _ => is_store_op o
  | Reply _ _ => false
  end.

Definition is_reply (e : event) : bool :=
  match e with
  | Reply _ _ => true
  | Call _ _ => false
  end.

(** The modules required at the top of the file. None of them is part of
    the controller: [call] is what an operation returns or throws, and how
    it changes the state [S] of the store, for the arguments it is given;
    the other fields are the constants read from [Blog] and
    [BlogSchemaKey]. Collaborators do not change the objects they are
    handed. *)
Record collab (S : Type) : Type := {
  call : op -> list value -> S -> result value * S;
  Blog : value;
  Blog_schema_obj : value;
  schemaKeys : value;
  updateSchemaKeys : value;
  findFilterKeys : value
}.
Arguments call {S} _ _ _ _.
Arguments Blog {S} _.
Arguments Blog_schema_obj {S} _.
Arguments schemaKeys {S} _.
Arguments updateSchemaKeys {S} _.
Arguments findFilterKeys {S} _.

(** The parts of [req] the handlers read. Express always provides the
    [params] object; [body] and [user] are whatever the middleware left. *)
Record request : Type := {
  body : value;
  params : gmap string value;
  user : value
}.

Record world (S : Type) : Type := {
  store : S;
  trace : list event
}.
Arguments store {S} _.
Arguments trace {S} _.

Definition M (S A : Type) : Type := world S -> result A * world S.

Definition ret {S A} (a : A) : M S A := fun w => (Ret a, w).

Definition bind {S A B} (m : M S A) (k : A -> M S B) : M S B :=
  fun w =>
    match m w with
    | (Ret a, w') => k a w'
    | (Throw e, w') => (Throw e, w')
    end.

Notation "x <- m ;; k" := (bind m (fun x => k))
  (at level 100, m at next level, right associativity).

(** An expression that may throw but touches nothing. *)
Definition lift {S A} (r : result A) : M S A := fun w => (r, w).

(** [try { body } catch (error) { handler }] *)
Definition try_catch {S A} (m : M S A) (handler : value -> M S A) : M S A :=
  fun w =>
    match m w with
    | (Ret a, w') => (Ret a, w')
    | (Throw e, w') => handler e w'
    end.

(** The helpers of [res]: what a call [res.r(payload)] does, given what
    the handler has done so far (a second send on the same response may
    fail where the first did not). The call either returns or throws. *)
Definition helpers : Type := response -> value -> list event -> result unit.

(** Helpers that always return. *)
Definition sends : helpers := fun _ _ _ => Ret tt.

(** [res.r(payload)] *)
Definition respond {S} (res : helpers) (r : response) (payload : value)
    : M S unit :=
  fun w =>
    (res r payload (trace w),
     {| store := store w; trace := trace w ++ [Reply r payload] |}).

(** A (possibly awaited) call of a collaborator. *)
Definition invoke {S} (c : collab S) (o : op) (args : list value) : M S value :=
  fun w =>
    let '(r, s') := call c o args (store w) in
    (r, {| store := s'; trace := trace w ++ [Call o args] |}).

(** An exported function: [async (req, res) => { try { ... } catch (error)
    { ... } }]. *)
Record js_handler (S : Type) : Type := {
  try_with : helpers -> request -> M S unit;
  catch_with : helpers -> value -> M S unit
}.
Arguments try_with {S} _ _ _.
Arguments catch_with {S} _ _ _.

Definition exec_with {S} (res : helpers) (f : js_handler S) (req : request)
    : M S unit :=
  try_catch (try_with f res req) (catch_with f res).

(** A handler run on a request and a response, from a store state and an
    empty trace. *)
Definition run_with {S} (res : helpers) (f : js_handler S) (req : request)
    (s : S) : result unit * world S :=
  exec_with res f req {| store := s; trace := [] |}.

(** The same with response helpers that always return. *)
Definition try_block {S} (f : js_handler S) : request -> M S unit :=
  try_with f sends.

Definition catch_block {S} (f : js_handler S) : value -> M S unit :=
  catch_with f sends.

Definition exec {S} (f : js_handler S) (req : request) : M S unit :=
  exec_with sends f req.

Definition run {S} (f : js_handler S) (req : request) (s : S)
    : result unit * world S :=
  run_with sends f req s.

(** ** The handlers *)

Section Handlers.

Context {S : Type} (c : collab S).

(** [catch (error) { return res.internalServerError({ message:error.message }); }] *)
Definition catch_plain (res : helpers) (error : value) : M S unit :=
  message <- lift (get_prop error "message") ;;
  respond res internalServerError (obj1 "message" message).

(** The catch block of [addBlog], [bulkInsertBlog] and [updateBlog]. *)
Definition catch_write (res : helpers) (error : value) : M S unit :=
  name <- lift (get_prop error "name") ;;
  if is_str name "ValidationError" then
    message <- lift (get_prop error "message") ;;
    respond res validationError
      (obj1 "message"
         (VStr ("Invalid Data, Validation Failed at " +:+ to_string message)))
  else
    code <- lift (get_prop error "code") ;;
    if truthy code && is_num code 11000 then
      respond res validationError
        (obj1 "message" (VStr "Data duplication found."))
    else
      message <- lift (get_prop error "message") ;;
      respond res internalServerError (obj1 "message" message).

(** [if (!validateRequest.isValid) return res.validationError(...)], with
    the prefix the handler puts before [validateRequest.message]. *)
Definition check_valid (res : helpers) (prefix : string)
    (validateRequest : value)
    (k : M S unit) : M S unit :=
  isValid <- lift (get_prop validateRequest "isValid") ;;
  if negb (truthy isValid) then
    message <- lift (get_prop validateRequest "message") ;;
    respond res validationError
      (obj1 "message" (VStr (prefix +:+ to_string message)))
  else k.

(** [if (!found) return res.recordNotFound(); return res.success({ data:found })] *)
Definition found_or_404 (res : helpers) (found : value) : M S unit :=
  if negb (truthy found) then respond res recordNotFound VUndef
  else respond res success (obj1 "data" found).

(** [!Array.isArray(v) || v.length < 1] *)
Definition no_items (v : value) : bool :=
  negb (is_array v) ||
  match v with
  | VArr l => Z.of_nat (length l) <? 1
  | _ => false
  end.

(** [!ids || !Array.isArray(ids) || ids.length < 1] *)
Definition no_ids (ids : value) : bool :=
  negb (truthy ids) || no_items ids.

Definition param_id (req : request) : value :=
  default VUndef (params req !! "id").

Definition addBlog : js_handler S := {|
  try_with res req :=
     let dataToCreate :=
       spread_obj (if truthy (body req) then body req else VObj ∅) in
     validateRequest <-
       invoke c validateParamsWithJoi [VObj dataToCreate; schemaKeys c] ;;
     check_valid res "Invalid values in parameters, " validateRequest
       (id <- lift (get_prop (user req) "id") ;;
        let dataToCreate := <["addedBy" := id]> dataToCreate in
        dataToCreate <- invoke c newBlog [VObj dataToCreate] ;;
        createdBlog <- invoke c createDocument [Blog c; dataToCreate] ;;
        respond res success (obj1 "data" createdBlog));
  catch_with res := catch_write res
|}.

Definition findAllBlog : js_handler S := {|
  try_with res req :=
     validateRequest <-
       invoke c validateFilterWithJoi
         [body req; findFilterKeys c; Blog_schema_obj c] ;;
     check_valid res "" validateRequest
       (q <- lift (get_prop (body req) "query") ;;
        let query := if is_object q then spread_obj q else ∅ in
        isCountOnly <- lift (get_prop (body req) "isCountOnly") ;;
        if truthy isCountOnly then
          totalRecords <- invoke c countDocument [Blog c; VObj query] ;;
          respond res success (obj1 "data" (obj1 "totalRecords" totalRecords))
        else
          options <-
            (if truthy (body req) then
               o <- lift (get_prop (body req) "options") ;;
               ret (if is_object o then spread_obj o else ∅)
             else ret ∅) ;;
          foundBlogs <-
            invoke c getAllDocuments [Blog c; VObj query; VObj options] ;;
          if negb (truthy foundBlogs) then respond res recordNotFound VUndef
          else
            data <- lift (get_prop foundBlogs "data") ;;
            if negb (truthy data) then respond res recordNotFound VUndef
            else
              len <- lift (get_prop data "length") ;;
              if negb (truthy len) then respond res recordNotFound VUndef
              else respond res success (obj1 "data" foundBlogs));
  catch_with res := catch_plain res
|}.

Definition getBlogCount : js_handler S := {|
  try_with res req :=
     validateRequest <-
       invoke c validateFilterWithJoi [body req; findFilterKeys c] ;;
     check_valid res "" validateRequest
       (w <- lift (get_prop (body req) "where") ;;
        let where_ := if is_object w then spread_obj w else ∅ in
        countedBlog <- invoke c countDocument [Blog c; VObj where_] ;;
        respond res success (obj1 "data" (obj1 "totalRecords" countedBlog)));
  catch_with res := catch_plain res
|}.

Definition softDeleteManyBlog : js_handler S := {|
  try_with res req :=
     ids <- lift (get_prop (body req) "ids") ;;
     if no_ids ids then respond res badRequest VUndef
     else
       let query := obj1 "_id" (obj1 "$in" ids) in
       id <- lift (get_prop (user req) "id") ;;
       let updateBody := obj2 "isDeleted" (VBool true) "updatedBy" id in
       updatedBlog <- invoke c bulkUpdate [Blog c; query; updateBody] ;;
       found_or_404 res updatedBlog;
  catch_with res := catch_plain res
|}.

(** The loop of [bulkInsertBlog]: [req.user.id] is read once per item. *)
Fixpoint add_addedBy (usr : value) (items : list value) : result (list value) :=
  match items with
  | [] => Ret []
  | item :: rest =>
      match get_prop usr "id" with
      | Throw e => Throw e
      | Ret id =>
          match add_addedBy usr rest with
          | Throw e => Throw e
          | Ret rest' => Ret (VObj (<["addedBy" := id]> (spread_obj item)) :: rest')
          end
      end
  end.

Definition bulkInsertBlog : js_handler S := {|
  try_with res req :=
     bad <-
       (if truthy (body req) then
          data <- lift (get_prop (body req) "data") ;;
          ret (no_items data)
        else ret false) ;;
     if (bad : bool) then respond res badRequest VUndef
     else
       data <- lift (get_prop (body req) "data") ;;
       dataToCreate <- lift (spread_arr "req.body.data" data) ;;
       dataToCreate <- lift (add_addedBy (user req) dataToCreate) ;;
       createdBlogs <- invoke c bulkInsert [Blog c; VArr dataToCreate] ;;
       respond res success (obj1 "data" createdBlogs);
  catch_with res := catch_write res
|}.

Definition bulkUpdateBlog : js_handler S := {|
  try_with res req :=
     filter <-
       (if truthy (body req) then
          f <- lift (get_prop (body req) "filter") ;;
          ret (if truthy f then spread_obj f else ∅)
        else ret ∅) ;;
     data <- lift (get_prop (body req) "data") ;;
     let dataToUpdate := delete "addedBy" (spread_obj data) in
     dataToUpdate <-
       (if is_object data then
          id <- lift (get_prop (user req) "id") ;;
          ret (<["updatedBy" := id]> dataToUpdate)
        else ret dataToUpdate) ;;
     result <- invoke c bulkUpdate [Blog c; VObj filter; VObj dataToUpdate] ;;
     found_or_404 res result;
  catch_with res := catch_plain res
|}.

Definition deleteManyBlog : js_handler S := {|
  try_with res req :=
     ids <- lift (get_prop (body req) "ids") ;;
     if no_ids ids then respond res badRequest VUndef
     else
       let query := obj1 "_id" (obj1 "$in" ids) in
       deletedBlog <- invoke c deleteMany [Blog c; query] ;;
       found_or_404 res deletedBlog;
  catch_with res := catch_plain res
|}.

Definition softDeleteBlog : js_handler S := {|
  try_with res req :=
     if negb (truthy (param_id req)) then respond res badRequest VUndef
     else
       let query := obj1 "_id" (param_id req) in
       id <- lift (get_prop (user req) "id") ;;
       let updateBody := obj2 "isDeleted" (VBool true) "updatedBy" id in
       updatedBlog <-
         invoke c findOneAndUpdateDocument
           [Blog c; query; updateBody; obj1 "new" (VBool true)] ;;
       found_or_404 res updatedBlog;
  catch_with res := catch_plain res
|}.

(** The bad-request helper is called without [return]: the handler goes on.
    [delete req.body['addedBy']] changes [req.body] itself, which is then
    spread. *)
Definition partialUpdateBlog : js_handler S := {|
  try_with res req :=
     _ <- (if negb (truthy (param_id req)) then respond res badRequest VUndef
           else ret tt) ;;
     body' <- lift (delete_prop (body req) "addedBy") ;;
     id <- lift (get_prop (user req) "id") ;;
     let dataToUpdate := <["updatedBy" := id]> (spread_obj body') in
     validateRequest <-
       invoke c validateParamsWithJoi [VObj dataToUpdate; updateSchemaKeys c] ;;
     check_valid res "Invalid values in parameters, " validateRequest
       (let query := obj1 "_id" (param_id req) in
        updatedBlog <-
          invoke c findOneAndUpdateDocument
            [Blog c; query; VObj dataToUpdate; obj1 "new" (VBool true)] ;;
        found_or_404 res updatedBlog);
  catch_with res := catch_plain res
|}.

Definition updateBlog : js_handler S := {|
  try_with res req :=
     id <- lift (get_prop (user req) "id") ;;
     let dataToUpdate := <["updatedBy" := id]> (spread_obj (body req)) in
     validateRequest <-
       invoke c validateParamsWithJoi [VObj dataToUpdate; updateSchemaKeys c] ;;
     check_valid res "Invalid values in parameters, " validateRequest
       (let query := obj1 "_id" (param_id req) in
        updatedBlog <-
          invoke c findOneAndUpdateDocument
            [Blog c; query; VObj dataToUpdate; obj1 "new" (VBool true)] ;;
        found_or_404 res updatedBlog);
  catch_with res := catch_write res
|}.

Definition getBlog : js_handler S := {|
  try_with res req :=
     valid <- invoke c ObjectId_isValid [param_id req] ;;
     if negb (truthy valid) then
       respond res validationError (obj1 "message" (VStr "invalid objectId."))
     else
       let query := obj1 "_id" (param_id req) in
       let options := VObj ∅ in
       foundBlog <- invoke c getSingleDocument [Blog c; query; options] ;;
       found_or_404 res foundBlog;
  catch_with res := catch_plain res
|}.

Definition deleteBlog : js_handler S := {|
  try_with res req :=
     if negb (truthy (param_id req)) then respond res badRequest VUndef
     else
       let query := obj1 "_id" (param_id req) in
       deletedBlog <- invoke c findOneAndDeleteDocument [Blog c; query] ;;
       found_or_404 res deletedBlog;
  catch_with res := catch_plain res
|}.

End Handlers.

(** [module.exports] *)
Inductive handler : Type :=
| h_addBlog
| h_findAllBlog
| h_getBlogCount
| h_softDeleteManyBlog
| h_bulkInsertBlog
| h_bulkUpdateBlog
| h_deleteManyBlog
| h_softDeleteBlog
| h_partialUpdateBlog
| h_updateBlog
| h_getBlog
| h_deleteBlog.

Definition exported {S} (c : collab S) (h : handler) : js_handler S :=
  match h with
  | h_addBlog => addBlog c
  | h_findAllBlog => findAllBlog c
  | h_getBlogCount => getBlogCount c
  | h_softDeleteManyBlog => softDeleteManyBlog c
  | h_bulkInsertBlog => bulkInsertBlog c
  | h_bulkUpdateBlog => bulkUpdateBlog c
  | h_deleteManyBlog => deleteManyBlog c
  | h_softDeleteBlog => softDeleteBlog c
  | h_partialUpdateBlog => partialUpdateBlog c
  | h_updateBlog => updateBlog c
  | h_getBlog => getBlog c
  | h_deleteBlog => deleteBlog c
  end.

(** ** Collaborators to run the handlers on *)

(** A collaborator without state: each operation answers from a fixed
    table, whatever its arguments. *)
Definition oracle (answer : op -> result value) : collab unit := {|
  call o _ s := (answer o, s);
  Blog := VStr "Blog";
  Blog_schema_obj := VObj ∅;
  schemaKeys := VStr "schemaKeys";
  updateSchemaKeys := VStr "updateSchemaKeys";
  findFilterKeys := VStr "findFilterKeys"
|}.

(** An [Error] object as a library throws it. *)
Definition js_error (name message : string) : value :=
  obj2 "name" (VStr name) "message" (VStr message).

Module RefStore.

(** Modelled from the spec: [dbService], [validateRequest], the [Blog]
    model and [ObjectId] are not among the sources. This is a small
    document store in their place: a collection is a list of documents,
    an update writes the fields of its payload into the matching documents
    and leaves the others as they are ("flag-based logical deletion
    preserving the record"), a delete removes the matching documents, and
    the validation accepts every request. Queries select by [_id], either
    one string or the [$in] list of [softDeleteManyBlog]; [{}] selects
    every document. *)
Definition has_id (d : gmap string value) (v : value) : bool :=
  match d !! "_id", v with
  | Some (VStr a), VStr b => String.eqb a b
  | _, _ => false
  end.

Definition matches (q : value) (d : gmap string value) : bool :=
  match q with
  | VObj sel =>
      match sel !! "_id" with
      | None => true
      | Some (VObj cond) =>
          match cond !! "$in" with
          | Some (VArr ids) => existsb (has_id d) ids
          | _ => false
          end
      | Some v => has_id d v
      end
  | _ => false
  end.

(** The payload's fields win over the document's. *)
Definition set_fields (p d : gmap string value) : gmap string value := p ∪ d.

Fixpoint update_one (q : value) (p : gmap string value)
    (s : list (gmap string value)) : value * list (gmap string value) :=
  match s with
  | [] => (VNull, [])
  | d :: rest =>
      if matches q d then (VObj (set_fields p d), set_fields p d :: rest)
      else let '(r, rest') := update_one q p rest in (r, d :: rest')
  end.

Fixpoint delete_one (q : value) (s : list (gmap string value))
    : value * list (gmap string value) :=
  match s with
  | [] => (VNull, [])
  | d :: rest =>
      if matches q d then (VObj d, rest)
      else let '(r, rest') := delete_one q rest in (r, d :: rest')
  end.

Definition count (q : value) (s : list (gmap string value)) : value :=
  VNum (Z.of_nat (length (List.filter (matches q) s))).

Definition valid : value := obj1 "isValid" (VBool true).

Definition ref_call (o : op) (args : list value) (s : list (gmap string value))
    : result value * list (gmap string value) :=
  match o, args with
  | validateParamsWithJoi, _ => (Ret valid, s)
  | validateFilterWithJoi, _ => (Ret valid, s)
  | newBlog, [d] => (Ret d, s)
  | ObjectId_isValid, [VStr x] => (Ret (VBool (Nat.eqb (String.length x) 24)), s)
  | ObjectId_isValid, _ => (Ret (VBool false), s)
  | createDocument, [_; VObj d] => (Ret (VObj d), (s ++ [d])%list)
  | countDocument, [_; q] => (Ret (count q s), s)
  | getAllDocuments, [_; q; _] =>
      (Ret (obj1 "data" (VArr (VObj <$> List.filter (matches q) s))), s)
  | bulkUpdate, [_; q; VObj p] =>
      (Ret (count q s),
       (fun d => if matches q d then set_fields p d else d) <$> s)
  | bulkInsert, [_; VArr l] => (Ret (VArr l), (s ++ (spread_obj <$> l))%list)
  | deleteMany, [_; q] =>
      (Ret (count q s), List.filter (fun d => negb (matches q d)) s)
  | findOneAndUpdateDocument, [_; q; VObj p; _] =>
      let '(r, s') := update_one q p s in (Ret r, s')
  | getSingleDocument, [_; q; _] =>
      (Ret (match List.filter (matches q) s with
            | d :: _ => VObj d
            | [] => VNull
            end), s)
  | findOneAndDeleteDocument, [_; q] =>
      let '(r, s') := delete_one q s in (Ret r, s')
  | _, _ => (Throw (js_error "Error" "bad arguments"), s)
  end.

Definition ref : collab (list (gmap string value)) := {|
  call := ref_call;
  Blog := VStr "Blog";
  Blog_schema_obj := VObj ∅;
  schemaKeys := VStr "schemaKeys";
  updateSchemaKeys := VStr "updateSchemaKeys";
  findFilterKeys := VStr "findFilterKeys"
|}.

End RefStore.

(** ** Notions used in the statements *)

(** A string of decimal digits, as the index keys of arrays are. *)
Fixpoint digits (s : string) : bool :=
  match s with
  | EmptyString => true
  | String a rest =>
      (Nat.leb 48 (Ascii.nat_of_ascii a) && Nat.leb (Ascii.nat_of_ascii a) 57)
      && digits rest
  end.

(** What a collaborator throws is an error: a library rejects with an
    [Error] object, never with [undefined] or [null]. *)
Definition throws_errors {S} (c : collab S) : Prop :=
  forall o args s e,
    (call c o args s).1 = Throw e -> e <> VUndef /\ e <> VNull.

(** The handlers whose catch block looks at [error.name] and [error.code]. *)
Definition maps_validation (h : handler) : bool :=
  match h with
  | h_addBlog | h_bulkInsertBlog | h_updateBlog => true
  | _ => false
  end.

(** The validation service accepted the request: [validateRequest.isValid]
    is truthy. *)
Definition accepted (validateRequest : value) : Prop :=
  exists isValid,
    get_prop validateRequest "isValid" = Ret isValid /\ truthy isValid = true.

(** [typeof v === 'object' && v !== null ? { ...v } : {}], the way
    [findAllBlog] takes [query] and [options] from the body. *)
Definition object_or_empty (v : value) : value :=
  VObj (if is_object v then spread_obj v else ∅).

(** [{ isDeleted: true, updatedBy: id }] *)
Definition soft_delete_payload (id : value) : value :=
  obj2 "isDeleted" (VBool true) "updatedBy" id.

(** A payload that has the field [k] with value [v], and one without [k]. *)
Definition sets_field (k : string) (v : value) (payload : value) : Prop :=
  exists o, payload = VObj o /\ o !! k = Some v.

Definition lacks_field (k : string) (payload : value) : Prop :=
  exists o, payload = VObj o /\ o !! k = None.

(** The contract of the two update operations of [dbService], which is not
    among the sources: an update keeps every document of the collection
    ([docs] lists them, in a fixed order) and changes at most the fields
    named in its payload, the third argument. *)
Definition updates_set_fields {S} (c : collab S)
    (docs : S -> list (gmap string value)) : Prop :=
  forall o blog q p rest s,
    is_update_op o = true ->
    Forall2 (fun d d' => forall k, p !! k = None -> d' !! k = d !! k)
      (docs s) (docs (call c o (blog :: q :: VObj p :: rest) s).2).

(** ** Sample data *)

Definition start {S} (s : S) : world S := {| store := s; trace := [] |}.

Definition alice : value := obj1 "id" (VStr "alice").

Definition post (id : string) (title : string) (author : string)
    : gmap string value :=
  <["_id" := VStr id]> (<["title" := VStr title]> (<["addedBy" := VStr author]> ∅)).

Definition two_posts : list (gmap string value) :=
  [post "p1" "first" "bob"; post "p2" "second" "carol"].

(** A store that refuses an insert as a duplicate. *)
Definition duplicate_key : value :=
  VObj (<["name" := VStr "MongoServerError"]>
       (<["code" := VNum 11000]>
       (<["message" := VStr "E11000 duplicate key error"]> ∅))).

Definition insert_fails (o : op) : result value :=
  match o with
  | validateParamsWithJoi => Ret RefStore.valid
  | newBlog => Ret (obj1 "title" (VStr "hello"))
  | createDocument => Throw duplicate_key
  | _ => Ret VNull
  end.

Definition get_p1 : request :=
  {| body := VUndef; params := <["id" := VStr "p1"]> ∅; user := alice |}.

Definition create_hello : request :=
  {| body := obj1 "title" (VStr "hello"); params := ∅; user := alice |}.

Definition soft_delete_p1 : request :=
  {| body := obj1 "ids" (VArr [VStr "p1"]);
     params := <["id" := VStr "p1"]> ∅;
     user := alice |}.

(** Requests whose body names somebody else, mallory, in the audit
    fields. *)
Definition forged_item : gmap string value :=
  <["title" := VStr "hello"]> (<["updatedBy" := VStr "mallory"]> ∅).

Definition insert_forged : request :=
  {| body := obj1 "data" (VArr [VObj forged_item]);
     params := ∅;
     user := alice |}.

Definition update_forged : request :=
  {| body := obj1 "addedBy" (VStr "mallory");
     params := <["id" := VStr "p2"]> ∅;
     user := alice |}.

(** A bulk update with a filter and no [data]. *)
Definition update_without_data : request :=
  {| body := obj1 "filter" (obj1 "_id" (VStr "p1"));
     params := ∅;
     user := alice |}.

(** A request that came without a body. *)
Definition no_body : request :=
  {| body := VUndef; params := ∅; user := alice |}.

Definition count_only : request :=
  {| body := obj1 "isCountOnly" (VBool true); params := ∅; user := alice |}.

Definition list_all : request :=
  {| body := VObj ∅; params := ∅; user := alice |}.

Definition patch_without_id : request :=
  {| body := obj1 "title" (VStr "edited"); params := ∅; user := alice |}.

(** ** Notions used in the further properties *)

(** The two operations of the validation service. *)
Definition is_validation_op (o : op) : bool :=
  match o with
  | validateParamsWithJoi | validateFilterWithJoi => true
  | _ => false
  end.

(** The handlers that call the validation service. *)
Definition validating (h : handler) : bool :=
  match h with
  | h_addBlog | h_findAllBlog | h_getBlogCount | h_partialUpdateBlog
  | h_updateBlog => true
  | _ => false
  end.

(** The handlers that read [req.user.id]. *)
Definition needs_user (h : handler) : bool :=
  match h with
  | h_addBlog | h_softDeleteManyBlog | h_bulkInsertBlog | h_softDeleteBlog
  | h_partialUpdateBlog | h_updateBlog => true
  | _ => false
  end.

(** The collaborator operations that occur in the text of a handler, in
    the order of the text. *)
Definition operations_of (h : handler) : list op :=
  match h with
  | h_addBlog => [validateParamsWithJoi; newBlog; createDocument]
  | h_findAllBlog => [validateFilterWithJoi; countDocument; getAllDocuments]
  | h_getBlogCount => [validateFilterWithJoi; countDocument]
  | h_softDeleteManyBlog => [bulkUpdate]
  | h_bulkInsertBlog => [bulkInsert]
  | h_bulkUpdateBlog => [bulkUpdate]
  | h_deleteManyBlog => [deleteMany]
  | h_softDeleteBlog => [findOneAndUpdateDocument]
  | h_partialUpdateBlog => [validateParamsWithJoi; findOneAndUpdateDocument]
  | h_updateBlog => [validateParamsWithJoi; findOneAndUpdateDocument]
  | h_getBlog => [ObjectId_isValid; getSingleDocument]
  | h_deleteBlog => [findOneAndDeleteDocument]
  end.

(** The operations a trace called, in order. *)
Definition called (tr : list event) : list op :=
  flat_map (fun ev => match ev with
                      | Call o _ => [o]
                      | Reply _ _ => []
                      end) tr.

Definition store_calls (tr : list event) : nat :=
  length (List.filter is_store_call tr).

Definition replies (tr : list event) : nat :=
  length (List.filter is_reply tr).

(** Something happened after a response helper was called. *)
Fixpoint answered_early (tr : list event) : bool :=
  match tr with
  | [] => false
  | Reply _ _ :: _ :: _ => true
  | _ :: rest => answered_early rest
  end.

(** What a response helper is handed: [{ data }], [{ message }] or
    nothing. *)
Definition reply_shape (r : response) (payload : value) : Prop :=
  match r with
  | success => exists data, payload = obj1 "data" data
  | validationError => exists m : string, payload = obj1 "message" (VStr m)
  | internalServerError => exists m, payload = obj1 "message" m
  | recordNotFound | badRequest => payload = VUndef
  end.

Definition nullish (v : value) : Prop := v = VUndef \/ v = VNull.

(** Sample requests for the further properties. *)
Definition delete_p1 : request :=
  {| body := obj1 "ids" (VArr [VStr "p1"]);
     params := <["id" := VStr "p1"]> ∅;
     user := VUndef |}.

Definition retitle_all : request :=
  {| body := obj1 "data" (obj1 "title" (VStr "same"));
     params := ∅;
     user := alice |}.

Definition count_by_author : request :=
  {| body := obj1 "where" (obj1 "_id" (VStr "p2"));
     params := ∅;
     user := alice |}.

Definition anonymous_patch : request :=
  {| body := obj1 "title" (VStr "edited");
     params := <["id" := VStr "p1"]> ∅;
     user := VUndef |}.

(** A validation service that rejects every request. *)
Definition rejection : value :=
  obj2 "isValid" (VBool false) "message" (VStr "title is required").

Definition reject_all (o : op) : result value :=
  match o with
  | validateParamsWithJoi | validateFilterWithJoi => Ret rejection
  | _ => Ret VNull
  end.

(** [{ ...item, addedBy: id }] *)
Definition stamp (id item : value) : value :=
  VObj (<["addedBy" := id]> (spread_obj item)).

Definition insert_two : request :=
  {| body := obj1 "data"
               (VArr [obj1 "title" (VStr "third");
                      obj1 "title" (VStr "fourth")]);
     params := ∅;
     user := alice |}.

Definition retitle_p2 : request :=
  {| body := obj2 "filter" (obj1 "_id" (VStr "p2"))
                  "data" (obj1 "title" (VStr "renamed"));
     params := <["id" := VStr "p2"]> ∅;
     user := alice |}.

Definition patch_p1 : request :=
  {| body := obj1 "title" (VStr "edited");
     params := <["id" := VStr "p1"]> ∅;
     user := alice |}.

(** ** Notions and data for failing collaborators and helpers *)

(** What a response helper throws is an error, never [undefined] or
    [null]. *)
Definition helpers_throw_errors (res : helpers) : Prop :=
  forall r p tr e, res r p tr = Throw e -> e <> VUndef /\ e <> VNull.

(** The two helpers the catch blocks call return. *)
Definition error_helpers_return (res : helpers) : Prop :=
  forall p tr,
    res internalServerError p tr = Ret tt /\
    res validationError p tr = Ret tt.

(** A response on which [success] cannot be written, as after the client
    went away. *)
Definition success_fails : helpers :=
  fun r _ _ =>
    match r with
    | success => Throw (js_error "Error" "write after end")
    | _ => Ret tt
    end.

(** A response that can be sent once: a helper called after another one
    throws. *)
Definition send_once : helpers :=
  fun _ _ tr =>
    if existsb is_reply tr
    then Throw (js_error "Error"
                  "Cannot set headers after they are sent to the client")
    else Ret tt.

(** A string of 24 hexadecimal digits, the identifiers [ObjectId.isValid]
    accepts among the path ids. *)
Definition is_hex (a : Ascii.ascii) : bool :=
  let n := Ascii.nat_of_ascii a in
  (Nat.leb 48 n && Nat.leb n 57) || (Nat.leb 65 n && Nat.leb n 70)
  || (Nat.leb 97 n && Nat.leb n 102).

Definition object_id_like (v : value) : bool :=
  match v with
  | VStr x =>
      Nat.eqb (String.length x) 24
      && forallb is_hex (String.list_ascii_of_string x)
  | _ => false
  end.

(** A store whose single-document read fails with the given error, behind
    an [ObjectId.isValid] that accepts 24 hexadecimal digits only. *)
Definition failing_read (e : value) : collab unit := {|
  call o args s :=
    (match o, args with
     | ObjectId_isValid, [v] => Ret (VBool (object_id_like v))
     | getSingleDocument, _ => Throw e
     | _, _ => Ret VNull
     end, s);
  Blog := VStr "Blog";
  Blog_schema_obj := VObj ∅;
  schemaKeys := VStr "schemaKeys";
  updateSchemaKeys := VStr "updateSchemaKeys";
  findFilterKeys := VStr "findFilterKeys"
|}.

Definition get_by_object_id : request :=
  {| body := VUndef;
     params := <["id" := VStr "507f1f77bcf86cd799439011"]> ∅;
     user := alice |}.

(** ** Facts about the JavaScript fragment *)

Section JSFacts.

Implicit Types (v e : value) (k : string).

Lemma get_prop_throw v k e :
  get_prop v k = Throw e ->
  (v = VUndef \/ v = VNull) /\ exists msg, e = type_error msg.
Proof.
  destruct v; simpl; intros H; try discriminate;
    try (injection H as <-; eauto).
  all: destruct (String.eqb k "length"); discriminate.
Qed.

Lemma get_prop_total v k :
  v <> VUndef -> v <> VNull -> exists x, get_prop v k = Ret x.
Proof.
  intros H1 H2. destruct (get_prop v k) as [x|e] eqn:E; [eauto|].
  apply get_prop_throw in E as [[?|?] _]; congruence.
Qed.

Lemma delete_prop_throw v k e :
  delete_prop v k = Throw e -> exists msg, e = type_error msg.
Proof.
  destruct v; simpl; intros H; try discriminate; injection H as <-; eauto.
Qed.

Lemma spread_arr_throw expr v e :
  spread_arr expr v = Throw e -> exists msg, e = type_error msg.
Proof.
  destruct v; simpl; intros H; try discriminate; injection H as <-; eauto.
Qed.

Lemma add_addedBy_throw usr items e :
  add_addedBy usr items = Throw e -> exists msg, e = type_error msg.
Proof.
  induction items as [|item rest IH]; simpl; [discriminate|].
  destruct (get_prop usr "id") eqn:G.
  - destruct (add_addedBy usr rest); [discriminate|].
    intros H; injection H as <-. by apply IH.
  - intros H; injection H as <-.
    apply get_prop_throw in G as [_ ?]. done.
Qed.

(** The loop of [bulkInsertBlog], once [req.user.id] is known to be readable. *)
Lemma add_addedBy_ret usr items items' :
  add_addedBy usr items = Ret items' ->
  items = [] /\ items' = [] \/
  exists id, get_prop usr "id" = Ret id /\
    items' = (fun item => VObj (<["addedBy" := id]> (spread_obj item))) <$> items.
Proof.
  revert items'. induction items as [|item rest IH]; simpl; intros items' H.
  - left. by injection H as <-.
  - right. destruct (get_prop usr "id") as [id|] eqn:G; [|discriminate].
    destruct (add_addedBy usr rest) as [rest'|] eqn:R; [|discriminate].
    injection H as <-. exists id. split; [done|].
    destruct (IH rest' eq_refl) as [[-> ->]|(id' & G' & ->)]; [done|].
    by replace id' with id by congruence.
Qed.

Lemma type_error_message msg :
  get_prop (type_error msg) "message" = Ret (VStr msg).
Proof. reflexivity. Qed.

Lemma type_error_name msg :
  get_prop (type_error msg) "name" = Ret (VStr "TypeError").
Proof. reflexivity. Qed.

Lemma type_error_code msg : get_prop (type_error msg) "code" = Ret VUndef.
Proof. reflexivity. Qed.

(** Index keys are decimal numerals, so an array or a string has no
    property called [addedBy] or [updatedBy]. *)
Lemma pretty_N_char_digit (x : N) acc :
  digits acc = true -> digits (String (pretty_N_char x) acc) = true.
Proof.
  intros H. unfold pretty_N_char.
  repeat case_match; simpl; by rewrite H.
Qed.

Lemma pretty_N_go_digits (x : N) acc :
  digits acc = true -> digits (pretty_N_go x acc) = true.
Proof.
  revert acc. induction (N.lt_wf_0 x) as [x _ IH]; intros acc H.
  assert (x = 0 \/ 0 < x)%N as [->|Hx] by lia.
  - by rewrite pretty_N_go_0.
  - rewrite pretty_N_go_step by done. apply IH.
    + by apply N.div_lt.
    + by apply pretty_N_char_digit.
Qed.

Lemma pretty_nat_digits (i : nat) : digits (pretty i) = true.
Proof.
  unfold pretty, pretty_nat, pretty, pretty_N.
  case_decide; [done|]. by apply pretty_N_go_digits.
Qed.

Lemma index_props_lookup_None (l : list value) k :
  digits k = false -> index_props l !! k = None.
Proof.
  intros Hk. unfold index_props. apply not_elem_of_list_to_map_1.
  intros Hin. apply list_elem_of_fmap in Hin as ([k' x] & -> & Hin).
  apply elem_of_lookup_imap in Hin as (i & y & Heq & _).
  injection Heq as -> ->. simpl in Hk.
  by rewrite pretty_nat_digits in Hk.
Qed.

Lemma spread_obj_delete_prop v v' k :
  digits k = false ->
  delete_prop v k = Ret v' -> spread_obj v' !! k = None.
Proof.
  intros Hk. destruct v; simpl; intros H; try discriminate;
    injection H as <-; simpl.
  - done.
  - done.
  - by apply index_props_lookup_None.
  - by apply index_props_lookup_None.
  - by apply lookup_delete_eq.
Qed.

(** A falsy body has no [data]. *)
Lemma falsy_no_data v x :
  truthy v = false -> get_prop v "data" = Ret x -> x = VUndef.
Proof.
  destruct v as [| |b|n|t| |]; simpl; try discriminate;
    try (by intros _ [= <-]).
  destruct t; [|discriminate]. by intros _ [= <-].
Qed.

Lemma no_items_false v :
  no_items v = false -> exists x l, v = VArr (x :: l).
Proof.
  destruct v as [| | | | |[|x l]|]; simpl; try discriminate. eauto.
Qed.

(** [error.code && error.code === 11000] is [error.code === 11000]. *)
Lemma truthy_and_is_num v (n : Z) :
  n <> 0 -> truthy v && is_num v n = is_num v n.
Proof.
  intros Hn. destruct v; simpl; try done; try apply andb_false_r.
  destruct (n0 =? n) eqn:E; [|apply andb_false_r].
  apply Z.eqb_eq in E as ->. by apply Z.eqb_neq in Hn as ->.
Qed.

End JSFacts.

(** ** Running a handler symbolically *)

(** The scrutinee the evaluation of a term is waiting for. *)
Ltac head_scrut t :=
  lazymatch t with
  | match ?x with _ => _ end => head_scrut x
  | (match ?x with _ => _ end) _ => head_scrut x
  | _ => t
  end.

Ltac norm_in E :=
  cbv [run exec run_with exec_with exported try_block catch_block
       try_with catch_with respond sends
       addBlog findAllBlog getBlogCount softDeleteManyBlog bulkInsertBlog
       bulkUpdateBlog deleteManyBlog softDeleteBlog partialUpdateBlog
       updateBlog getBlog deleteBlog check_valid found_or_404 catch_plain
       catch_write try_catch bind lift ret invoke
       store trace negb andb orb app] in E;
  rewrite ?type_error_message, ?type_error_name, ?type_error_code in E.

(** One step: use what is known about the awaited call or property, or
    split on its outcome. A [TypeError] of the engine is made explicit. *)
Ltac step_in E :=
  lazymatch type of E with
  | ?lhs = _ =>
      let h := head_scrut lhs in
      lazymatch h with
      | (_, _) => fail
      | _ =>
          first
            [ match goal with
              | H : h = _ |- _ => rewrite H in E
              end
            | lazymatch h with
              | call _ _ _ _ =>
                  let r := fresh "r" in
                  let s := fresh "s" in
                  destruct h as [[r|r] s] eqn:?
              | get_prop _ _ =>
                  let G := fresh "G" in
                  let N := fresh "N" in
                  let m := fresh "msg" in
                  destruct h eqn:G;
                  [ | apply get_prop_throw in G as [N [m ->]] ]
              | delete_prop _ _ =>
                  let G := fresh "G" in
                  let m := fresh "msg" in
                  destruct h eqn:G;
                  [ | pose proof G as [m ->]%delete_prop_throw ]
              | spread_arr _ _ =>
                  let G := fresh "G" in
                  let m := fresh "msg" in
                  destruct h eqn:G;
                  [ | pose proof G as [m ->]%spread_arr_throw ]
              | add_addedBy _ _ =>
                  let G := fresh "G" in
                  let m := fresh "msg" in
                  destruct h eqn:G;
                  [ | pose proof G as [m ->]%add_addedBy_throw ]
              | _ => destruct h eqn:?
              end ]
      end
  end; norm_in E.

Ltac run_in E := norm_in E; repeat step_in E.

(** Opens the hypothesis that the validation accepted the request. *)
Ltac accept H :=
  let iv := fresh "isValid" in
  let G := fresh "G" in
  let T := fresh "T" in
  destruct H as (iv & G & T).

(** A concrete trace whose last event is a reply. *)
Ltac ends_in_reply :=
  lazymatch goal with
  | |- exists w, exists tr k p, (_, ?W) = _ /\ _ => exists W
  end;
  cbn [trace];
  lazymatch goal with
  | |- exists tr k p, _ = (Ret tt, _) /\ ?l = _ =>
      lazymatch l with
      | [Reply ?k ?p] => exists [], k, p
      | [?a; Reply ?k ?p] => exists [a], k, p
      | [?a; ?b; Reply ?k ?p] => exists [a; b], k, p
      | [?a; ?b; ?d; Reply ?k ?p] => exists [a; b; d], k, p
      | [?a; ?b; ?d; ?e; Reply ?k ?p] => exists [a; b; d; e], k, p
      end
  end; split; reflexivity.

(** Every event of a concrete trace: only the calls of the operation the
    statement is about are left to look at. *)
Ltac call_events :=
  repeat constructor;
  let args := fresh "args" in
  let Hev := fresh "Hev" in
  intros args Hev; try discriminate Hev; injection Hev as <-.

Ltac exists_id :=
  match goal with
  | G : get_prop (user _) "id" = Ret ?id |- _ => exists id
  end.

(** ** No handler lets an exception escape *)

Section Safety.

Context {S : Type} (c : collab S) (res : helpers).
Hypothesis Hc : throws_errors c.
Hypothesis Hres : helpers_throw_errors res.
Hypothesis Hcatch : error_helpers_return res.

Lemma thrown_not_nullish o args s e s' :
  call c o args s = (Throw e, s') -> e = VUndef \/ e = VNull -> False.
Proof.
  intros E N. destruct (Hc o args s e) as [H1 H2]; [by rewrite E|].
  destruct N; congruence.
Qed.

Lemma helper_thrown_not_nullish r p tr e :
  res r p tr = Throw e -> e = VUndef \/ e = VNull -> False.
Proof.
  intros E N. destruct (Hres r p tr e E) as [H1 H2].
  destruct N; congruence.
Qed.


End Safety.

(** ** What the catch blocks answer *)

Section Errors.

Context {S : Type} (c : collab S).


(** The two update handlers left out above answer every thrown error with
    an internal-server-error response as well, although [updateBlog], which
    does the same store update as [partialUpdateBlog], maps validation and
    duplicate-key errors. *)
Lemma update_paths_without_mapping (h : handler) (req : request)
    (w w' : world S) (e message : value) :
  h = h_partialUpdateBlog \/ h = h_bulkUpdateBlog ->
  try_block (exported c h) req w = (Throw e, w') ->
  get_prop e "message" = Ret message ->
  exec (exported c h) req w =
    (Ret tt,
     {| store := store w';
        trace := trace w' ++
          [Reply internalServerError (obj1 "message" message)] |}).
Proof.
  intros Hh Htry Hmsg. unfold exec, exec_with, try_catch.
  change (try_with (exported c h) sends req w)
    with (try_block (exported c h) req w).
  rewrite Htry.
  destruct Hh as [-> | ->]; simpl;
    unfold catch_plain, bind, lift, respond, sends; by rewrite Hmsg.
Qed.

End Errors.



(** The reference store only ever throws an [Error] object. *)
Lemma ref_throws_errors : throws_errors RefStore.ref.
Proof.
  intros o args s e H. unfold RefStore.ref, call, RefStore.ref_call in H.
  assert (e = js_error "Error" "bad arguments") as ->.
  { destruct o; simpl in H; repeat case_match; simpl in H;
      first [discriminate | by injection H as <-]. }
  split; discriminate.
Qed.

Lemma success_fails_throws_errors : helpers_throw_errors success_fails.
Proof.
  intros r p tr e H. destruct r; simpl in H; try discriminate H.
  injection H as <-. split; discriminate.
Qed.

Lemma success_fails_error_helpers : error_helpers_return success_fails.
Proof. intros p tr. by split. Qed.



(** ** Soft delete *)

Section SoftDelete.

Context {S : Type} (c : collab S) (docs : S -> list (gmap string value)).
Hypothesis Hupd : updates_set_fields c docs.

Lemma docs_unchanged (s : S) :
  Forall2 (fun d d' : gmap string value =>
             forall k, k <> "isDeleted" -> k <> "updatedBy" ->
                       d' !! k = d !! k)
    (docs s) (docs s).
Proof. apply Forall_Forall2_diag, Forall_forall. done. Qed.

Lemma docs_after_soft_delete o q id rest s r s' :
  is_update_op o = true ->
  call c o (Blog c :: q :: soft_delete_payload id :: rest) s = (r, s') ->
  Forall2 (fun d d' : gmap string value =>
             forall k, k <> "isDeleted" -> k <> "updatedBy" ->
                       d' !! k = d !! k)
    (docs s) (docs s').
Proof.
  intros Ho E.
  pose proof (Hupd o (Blog c) q
                (<["updatedBy" := id]> (<["isDeleted" := VBool true]> ∅))
                rest s Ho) as H.
  unfold soft_delete_payload, obj2 in E. rewrite E in H. simpl in H.
  eapply Forall2_impl; [exact H|].
  intros d d' Hd k Hk1 Hk2. apply Hd.
  by rewrite !lookup_insert_ne, lookup_empty.
Qed.

Lemma no_ids_cons x l : no_ids (VArr (x :: l)) = false.
Proof. unfold no_ids, no_items. simpl. apply Z.ltb_ge. lia. Qed.

(** C5: the only collaborator call [softDeleteBlog] and
    [softDeleteManyBlog] ever make is an update of the store whose payload
    is exactly [{ isDeleted: true, updatedBy: req.user.id }]; so, with an
    update that writes only the fields of its payload, every document is
    still in the collection afterwards and agrees with what it was on every
    field but [isDeleted] and [updatedBy]. A run that ends with a success
    or record-not-found response has made that one update and nothing
    else. A delete operation of the store is called by no handler but
    [deleteBlog] and [deleteManyBlog]. And the update is issued:
    [softDeleteBlog] on a request with a path id, and [softDeleteManyBlog]
    on a non-empty list of ids, with a user, first call the store, to
    update the document with that id (the documents with these ids) with
    that payload; the store is then as that call left it, and the answer
    is success with what the call returned, or record-not-found when that
    is falsy. *)
Theorem soft_delete_only_flags (h : handler) (req : request) (s : S) :
  h = h_softDeleteBlog \/ h = h_softDeleteManyBlog ->
  Forall (fun ev => exists o q id rest,
            ev = Call o (Blog c :: q :: soft_delete_payload id :: rest) /\
            is_update_op o = true /\ is_delete_op o = false /\
            get_prop (user req) "id" = Ret id)
    (List.filter (fun ev => negb (is_reply ev))
       (trace (run (exported c h) req s).2)) /\
  Forall2 (fun d d' : gmap string value =>
             forall k, k <> "isDeleted" -> k <> "updatedBy" ->
                       d' !! k = d !! k)
    (docs s) (docs (store (run (exported c h) req s).2)) /\
  (forall k p,
     last (trace (run (exported c h) req s).2) = Some (Reply k p) ->
     k = success \/ k = recordNotFound ->
     exists o q id rest,
       trace (run (exported c h) req s).2 =
         [Call o (Blog c :: q :: soft_delete_payload id :: rest);
          Reply k p]) /\
  (forall h' req' s',
     Exists (fun ev => exists o args, ev = Call o args /\ is_delete_op o = true)
       (trace (run (exported c h') req' s').2) ->
     h' = h_deleteBlog \/ h' = h_deleteManyBlog) /\
  (forall id,
     truthy (param_id req) = true ->
     get_prop (user req) "id" = Ret id ->
     exists rest,
       trace (run (softDeleteBlog c) req s).2 =
         Call findOneAndUpdateDocument
           [Blog c; obj1 "_id" (param_id req); soft_delete_payload id;
            obj1 "new" (VBool true)]
         :: rest /\
       store (run (softDeleteBlog c) req s).2 =
         (call c findOneAndUpdateDocument
            [Blog c; obj1 "_id" (param_id req); soft_delete_payload id;
             obj1 "new" (VBool true)] s).2 /\
       forall updatedBlog,
         (call c findOneAndUpdateDocument
            [Blog c; obj1 "_id" (param_id req); soft_delete_payload id;
             obj1 "new" (VBool true)] s).1 = Ret updatedBlog ->
         rest = [if truthy updatedBlog
                 then Reply success (obj1 "data" updatedBlog)
                 else Reply recordNotFound VUndef]) /\
  (forall x l id,
     get_prop (body req) "ids" = Ret (VArr (x :: l)) ->
     get_prop (user req) "id" = Ret id ->
     exists rest,
       trace (run (softDeleteManyBlog c) req s).2 =
         Call bulkUpdate
           [Blog c; obj1 "_id" (obj1 "$in" (VArr (x :: l)));
            soft_delete_payload id]
         :: rest /\
       store (run (softDeleteManyBlog c) req s).2 =
         (call c bulkUpdate
            [Blog c; obj1 "_id" (obj1 "$in" (VArr (x :: l)));
             soft_delete_payload id] s).2 /\
       forall updatedBlog,
         (call c bulkUpdate
            [Blog c; obj1 "_id" (obj1 "$in" (VArr (x :: l)));
             soft_delete_payload id] s).1 = Ret updatedBlog ->
         rest = [if truthy updatedBlog
                 then Reply success (obj1 "data" updatedBlog)
                 else Reply recordNotFound VUndef]).
Proof.
  intros Hh. split; [|split; [|split; [|split; [|split]]]].
  - destruct (run (exported c h) req s) as [r w] eqn:E.
    destruct Hh as [-> | ->]; run_in E; injection E as <- <-; simpl;
      repeat constructor; eexists _, _, _, _; eauto.
  - destruct (run (exported c h) req s) as [r w] eqn:E.
    destruct Hh as [-> | ->]; run_in E; injection E as <- <-; simpl;
      first [ apply docs_unchanged
            | match goal with
              | H : call c ?o (_ :: ?q :: _ :: ?rest) _ = _ |- _ =>
                  exact (docs_after_soft_delete o q _ rest _ _ _ eq_refl H)
              end ].
  - intros k p Hlast Hk.
    destruct (run (exported c h) req s) as [r w] eqn:E.
    destruct Hh as [-> | ->]; run_in E; injection E as <- <-;
      simpl in *; simplify_eq; try (by destruct Hk);
      by eexists _, _, _, _.
  - intros h' req' s' Hex.
    destruct (run (exported c h') req' s') as [r w] eqn:E.
    destruct h'; try (by left); try (by right); exfalso;
      run_in E; injection E as <- <-; simpl in Hex;
      repeat (apply Exists_cons in Hex as [(? & ? & Hev & Hdel)|Hex];
              [by simplify_eq/= |]);
      by apply Exists_nil in Hex.
  - intros id Hid Hu.
    destruct (run (softDeleteBlog c) req s) as [r w] eqn:E.
    unfold soft_delete_payload in *.
    run_in E; injection E as <- <-; cbn [trace store snd fst];
      (eexists; split; [reflexivity|]);
      (split; [reflexivity|]);
      intros u Hcall; simplify_eq/=;
      repeat match goal with
             | H : truthy _ = _ |- _ => rewrite H
             end; reflexivity.
  - intros x l id Hids Hu.
    pose proof (no_ids_cons x l) as Hno.
    destruct (run (softDeleteManyBlog c) req s) as [r w] eqn:E.
    unfold soft_delete_payload in *.
    run_in E; injection E as <- <-; cbn [trace store snd fst];
      (eexists; split; [reflexivity|]);
      (split; [reflexivity|]);
      intros u Hcall; simplify_eq/=;
      repeat match goal with
             | H : truthy _ = _ |- _ => rewrite H
             end; reflexivity.
Qed.

End SoftDelete.

(** The reference store honours the contract of an update. *)
Lemma set_fields_frame (p d : gmap string value) k :
  p !! k = None -> RefStore.set_fields p d !! k = d !! k.
Proof. intros Hk. unfold RefStore.set_fields. by rewrite lookup_union_r. Qed.

Lemma update_one_frame q (p : gmap string value) (s : list (gmap string value)) :
  Forall2 (fun d d' : gmap string value =>
             forall k, p !! k = None -> d' !! k = d !! k)
    s (RefStore.update_one q p s).2.
Proof.
  induction s as [|d rest IH]; simpl; [constructor|].
  destruct (RefStore.matches q d).
  - simpl. constructor.
    + intros k Hk. by apply set_fields_frame.
    + apply Forall_Forall2_diag, Forall_forall. done.
  - destruct (RefStore.update_one q p rest) as [r rest']. simpl in *.
    by constructor.
Qed.

Lemma ref_updates_set_fields :
  updates_set_fields RefStore.ref (fun s => s).
Proof.
  intros o blog q p rest s Ho.
  assert (Hsame : Forall2
            (fun d d' : gmap string value =>
               forall k, p !! k = None -> d' !! k = d !! k) s s).
  { apply Forall_Forall2_diag, Forall_forall. done. }
  destruct o; try discriminate; simpl.
  - destruct rest; simpl; [|done].
    apply Forall2_fmap_r, Forall_Forall2_diag, Forall_forall.
    intros d _ k Hk. destruct (RefStore.matches q d); [|done].
    by apply set_fields_frame.
  - destruct rest as [|x [|y rest]]; simpl; try done.
    pose proof (update_one_frame q p s) as H.
    by destruct (RefStore.update_one q p s).
Qed.

Lemma soft_delete_only_flags_witness :
  updates_set_fields RefStore.ref (fun s => s) /\
  (h_softDeleteManyBlog = h_softDeleteBlog \/
   h_softDeleteManyBlog = h_softDeleteManyBlog) /\
  Forall2 (fun d d' : gmap string value =>
             forall k, k <> "isDeleted" -> k <> "updatedBy" ->
                       d' !! k = d !! k)
    two_posts
    (store (run (exported RefStore.ref h_softDeleteManyBlog)
              soft_delete_p1 two_posts).2) /\
  exists rest,
    trace (run (softDeleteManyBlog RefStore.ref) soft_delete_p1 two_posts).2 =
      Call bulkUpdate
        [Blog RefStore.ref; obj1 "_id" (obj1 "$in" (VArr [VStr "p1"]));
         soft_delete_payload (VStr "alice")]
      :: rest.
Proof.
  split; [exact ref_updates_set_fields|].
  split; [by right|].
  pose proof (soft_delete_only_flags RefStore.ref (fun s => s)
                ref_updates_set_fields
                h_softDeleteManyBlog soft_delete_p1 two_posts
                (or_intror eq_refl))
    as (_ & Hframe & _ & _ & _ & Hmany).
  split; [exact Hframe|].
  destruct (Hmany (VStr "p1") [] (VStr "alice") eq_refl eq_refl)
    as (rest & Htrace & _).
  exists rest. exact Htrace.
Defined.

(** On the two sample posts: the soft-deleted one is flagged and keeps its
    other fields, the other one is untouched, none is removed. *)
Example soft_delete_many_run :
  run (softDeleteManyBlog RefStore.ref) soft_delete_p1 two_posts =
    (Ret tt,
     {| store :=
          [<["isDeleted" := VBool true]>
             (<["updatedBy" := VStr "alice"]> (post "p1" "first" "bob"));
           post "p2" "second" "carol"];
        trace :=
          [Call bulkUpdate
             [VStr "Blog"; obj1 "_id" (obj1 "$in" (VArr [VStr "p1"]));
              soft_delete_payload (VStr "alice")];
           Reply success (obj1 "data" (VNum 1))] |}).
Proof. vm_compute. reflexivity. Qed.

(** ** The audit fields [addedBy] and [updatedBy] *)

Section AuditFields.

Context {S : Type} (c : collab S).

Lemma sets_field_insert k v (o : gmap string value) :
  sets_field k v (VObj (<[k := v]> o)).
Proof. eexists. split; [done|]. apply lookup_insert_eq. Qed.

Lemma lacks_addedBy_partial v v' id :
  delete_prop v "addedBy" = Ret v' ->
  lacks_field "addedBy" (VObj (<["updatedBy" := id]> (spread_obj v'))).
Proof.
  intros H. eexists. split; [done|].
  rewrite lookup_insert_ne by done.
  by eapply spread_obj_delete_prop.
Qed.

Lemma lacks_addedBy_bulk (o : gmap string value) id :
  lacks_field "addedBy" (VObj (<["updatedBy" := id]> (delete "addedBy" o))).
Proof.
  eexists. split; [done|].
  rewrite lookup_insert_ne by done. apply lookup_delete_eq.
Qed.

Lemma lacks_addedBy_delete (o : gmap string value) :
  lacks_field "addedBy" (VObj (delete "addedBy" o)).
Proof. eexists. split; [done|]. apply lookup_delete_eq. Qed.

(** C1, as the code has it. What reaches the model constructor in
    [addBlog] and the store in [bulkInsertBlog] is the client's document
    with [addedBy] set to [req.user.id]; every other field, [updatedBy]
    included, is the client's. The payload of the store update has no
    [addedBy] in [bulkUpdateBlog] and [partialUpdateBlog]; it has
    [updatedBy] set to [req.user.id] in [partialUpdateBlog] and
    [updateBlog], and in [bulkUpdateBlog] when [req.body.data] is an
    object: otherwise that payload is the spread of [req.body.data] and
    nothing is added to it. *)
Theorem audit_fields_forwarded (req : request) (s : S) :
  Forall (fun ev => forall args, ev = Call createDocument args ->
            exists id d doc s1,
              get_prop (user req) "id" = Ret id /\
              d = VObj (<["addedBy" := id]>
                     (spread_obj (if truthy (body req) then body req
                                  else VObj ∅))) /\
              sets_field "addedBy" id d /\
              (call c newBlog [d] s1).1 = Ret doc /\
              args = [Blog c; doc])
    (trace (run (addBlog c) req s).2) /\
  Forall (fun ev => forall args, ev = Call bulkInsert args ->
            exists id data,
              get_prop (user req) "id" = Ret id /\
              get_prop (body req) "data" = Ret (VArr data) /\
              args = [Blog c;
                      VArr ((fun item =>
                               VObj (<["addedBy" := id]> (spread_obj item)))
                            <$> data)])
    (trace (run (bulkInsertBlog c) req s).2) /\
  Forall (fun ev => forall args, ev = Call bulkUpdate args ->
            exists filter p data,
              args = [Blog c; filter; p] /\
              get_prop (body req) "data" = Ret data /\
              lacks_field "addedBy" p /\
              (is_object data = true ->
               exists id, get_prop (user req) "id" = Ret id /\
                          sets_field "updatedBy" id p) /\
              (is_object data = false ->
               p = VObj (delete "addedBy" (spread_obj data))))
    (trace (run (bulkUpdateBlog c) req s).2) /\
  Forall (fun ev => forall args, ev = Call findOneAndUpdateDocument args ->
            exists q p opts id,
              args = [Blog c; q; p; opts] /\
              get_prop (user req) "id" = Ret id /\
              lacks_field "addedBy" p /\
              sets_field "updatedBy" id p)
    (trace (run (partialUpdateBlog c) req s).2) /\
  Forall (fun ev => forall args, ev = Call findOneAndUpdateDocument args ->
            exists q p opts id,
              args = [Blog c; q; p; opts] /\
              get_prop (user req) "id" = Ret id /\
              sets_field "updatedBy" id p)
    (trace (run (updateBlog c) req s).2).
Proof.
  repeat split.
  - destruct (run (addBlog c) req s) as [r w] eqn:E.
    run_in E; injection E as <- <-; simpl; call_events.
    all: match goal with
         | H : call c newBlog [?d] ?s1 = (Ret ?doc, _) |- _ =>
             exists_id; exists d, doc, s1; rewrite H
         end; repeat split; try done; apply sets_field_insert.
  - destruct (run (bulkInsertBlog c) req s) as [r w] eqn:E.
    run_in E; injection E as <- <-; simpl; call_events.
    all: try match goal with
         | F : truthy ?b = false,
           G : get_prop ?b "data" = Ret ?a,
           H : spread_arr _ ?a = Ret _ |- _ =>
             rewrite (falsy_no_data _ _ F G) in H; discriminate H
         end.
    all: match goal with
         | H : no_items _ = false |- _ =>
             apply no_items_false in H as (x & l & ->)
         end.
    all: repeat match goal with
         | G : get_prop ?b "data" = _,
           G' : get_prop ?b "data" = _ |- _ =>
             rewrite G in G'; injection G' as <-
         end.
    all: match goal with
         | H : spread_arr _ (VArr _) = Ret _ |- _ => injection H as <-
         end.
    all: match goal with
         | H : add_addedBy _ _ = Ret _ |- _ =>
             apply add_addedBy_ret in H as [[? _]|(id & Hid & ->)];
             [discriminate|]
         end.
    all: exists id, (x :: l); rewrite ?Hid; done.
  - destruct (run (bulkUpdateBlog c) req s) as [r w] eqn:E.
    run_in E; injection E as <- <-; simpl; call_events.
    all: eexists _, _, _; split; [reflexivity|]; split; [reflexivity|].
    all: split;
      [first [apply lacks_addedBy_bulk | apply lacks_addedBy_delete]|].
    all: split; intros Hobj; first [congruence | reflexivity | idtac].
    all: eexists; split; [reflexivity | apply sets_field_insert].
  - destruct (run (partialUpdateBlog c) req s) as [r w] eqn:E.
    run_in E; injection E as <- <-; simpl; call_events.
    all: eexists _, _, _, _; split; [reflexivity|]; split; [reflexivity|].
    all: split; [eapply lacks_addedBy_partial; eassumption|].
    all: apply sets_field_insert.
  - destruct (run (updateBlog c) req s) as [r w] eqn:E.
    run_in E; injection E as <- <-; simpl; call_events.
    all: eexists _, _, _, _; split; [reflexivity|]; split; [reflexivity|].
    all: apply sets_field_insert.
Qed.

End AuditFields.

(** C1 as stated fails. The [updatedBy] a client puts in a document to
    insert reaches the store as sent, and a bulk update whose body has no
    [data] object is issued without any [updatedBy]. *)
Lemma client_updatedBy_reaches_store :
  trace (run (bulkInsertBlog RefStore.ref) insert_forged two_posts).2 =
    [Call bulkInsert
       [VStr "Blog";
        VArr [VObj (<["addedBy" := VStr "alice"]>
                   (<["title" := VStr "hello"]>
                   (<["updatedBy" := VStr "mallory"]> ∅)))]];
     Reply success
       (obj1 "data"
          (VArr [VObj (<["addedBy" := VStr "alice"]>
                      (<["title" := VStr "hello"]>
                      (<["updatedBy" := VStr "mallory"]> ∅)))]))] /\
  trace (run (bulkUpdateBlog RefStore.ref) update_without_data two_posts).2 =
    [Call bulkUpdate [VStr "Blog"; obj1 "_id" (VStr "p1"); VObj ∅];
     Reply success (obj1 "data" (VNum 1))].
Proof. split; vm_compute; reflexivity. Qed.

(** [updateBlog] does not delete [addedBy] from the body, as
    [partialUpdateBlog] does: on the same request the first rewrites the
    author of the post, the second does not. *)
Lemma updateBlog_forwards_addedBy :
  run (updateBlog RefStore.ref) update_forged two_posts =
    (Ret tt,
     {| store :=
          [post "p1" "first" "bob";
           <["updatedBy" := VStr "alice"]> (post "p2" "second" "mallory")];
        trace :=
          [Call validateParamsWithJoi
             [VObj (<["updatedBy" := VStr "alice"]>
                   (<["addedBy" := VStr "mallory"]> ∅));
              VStr "updateSchemaKeys"];
           Call findOneAndUpdateDocument
             [VStr "Blog"; obj1 "_id" (VStr "p2");
              VObj (<["updatedBy" := VStr "alice"]>
                   (<["addedBy" := VStr "mallory"]> ∅));
              obj1 "new" (VBool true)];
           Reply success
             (obj1 "data"
                (VObj (<["updatedBy" := VStr "alice"]>
                         (post "p2" "second" "mallory"))))] |}) /\
  run (partialUpdateBlog RefStore.ref) update_forged two_posts =
    (Ret tt,
     {| store :=
          [post "p1" "first" "bob";
           <["updatedBy" := VStr "alice"]> (post "p2" "second" "carol")];
        trace :=
          [Call validateParamsWithJoi
             [VObj (<["updatedBy" := VStr "alice"]> ∅);
              VStr "updateSchemaKeys"];
           Call findOneAndUpdateDocument
             [VStr "Blog"; obj1 "_id" (VStr "p2");
              VObj (<["updatedBy" := VStr "alice"]> ∅);
              obj1 "new" (VBool true)];
           Reply success
             (obj1 "data"
                (VObj (<["updatedBy" := VStr "alice"]>
                         (post "p2" "second" "carol"))))] |}).
Proof. split; vm_compute; reflexivity. Qed.

(** ** The guards of the bulk operations *)

Section BulkGuards.

Context {S : Type} (c : collab S).

Lemma no_items_true v :
  v = VUndef \/ is_array v = false \/ v = VArr [] -> no_items v = true.
Proof.
  intros [-> | [H | ->]]; [done | | done].
  unfold no_items. by rewrite H.
Qed.

(** When the request has a body, a missing, non-array or empty [ids] or
    [data] is answered with a bad-request response and nothing else
    happens. For [bulkInsertBlog] the body has to be truthy. *)
Lemma bulk_guard_with_body (req : request) (s : S) (v : value) :
  v = VUndef \/ is_array v = false \/ v = VArr [] ->
  (get_prop (body req) "ids" = Ret v ->
   run (softDeleteManyBlog c) req s =
     (Ret tt, {| store := s; trace := [Reply badRequest VUndef] |}) /\
   run (deleteManyBlog c) req s =
     (Ret tt, {| store := s; trace := [Reply badRequest VUndef] |})) /\
  (truthy (body req) = true ->
   get_prop (body req) "data" = Ret v ->
   run (bulkInsertBlog c) req s =
     (Ret tt, {| store := s; trace := [Reply badRequest VUndef] |})).
Proof.
  intros Hv. pose proof (no_items_true v Hv) as Hitems.
  assert (Hids : no_ids v = true).
  { unfold no_ids. rewrite Hitems. apply orb_true_r. }
  split.
  - intros G. split.
    + destruct (run (softDeleteManyBlog c) req s) as [r w] eqn:E.
      by run_in E.
    + destruct (run (deleteManyBlog c) req s) as [r w] eqn:E.
      by run_in E.
  - intros Hb G.
    destruct (run (bulkInsertBlog c) req s) as [r w] eqn:E.
    by run_in E.
Qed.

(** Without a body the three handlers answer with an
    internal-server-error response, still without a store call: the guard
    of [bulkInsertBlog] is skipped for a falsy body and the next line reads
    [req.body.data]; the other two read [req.body.ids] at once. *)
Lemma bulk_guard_without_body (req : request) (s : S) :
  body req = VUndef ->
  run (bulkInsertBlog c) req s =
    (Ret tt,
     {| store := s;
        trace :=
          [Reply internalServerError
             (obj1 "message"
                (VStr "Cannot read properties of undefined (reading 'data')"))]
     |}) /\
  run (softDeleteManyBlog c) req s =
    (Ret tt,
     {| store := s;
        trace :=
          [Reply internalServerError
             (obj1 "message"
                (VStr "Cannot read properties of undefined (reading 'ids')"))]
     |}) /\
  run (deleteManyBlog c) req s =
    (Ret tt,
     {| store := s;
        trace :=
          [Reply internalServerError
             (obj1 "message"
                (VStr "Cannot read properties of undefined (reading 'ids')"))]
     |}).
Proof.
  intros Hb. destruct req as [b p u]. simpl in Hb. subst b.
  split; [|split]; reflexivity.
Qed.

End BulkGuards.

(** C2 fails on a request without body: [bulkInsertBlog] answers it with
    an internal-server-error response, not with a bad-request response. *)
Theorem bulkInsert_without_body_is_server_error :
  run (bulkInsertBlog RefStore.ref) no_body two_posts =
    (Ret tt,
     {| store := two_posts;
        trace :=
          [Reply internalServerError
             (obj1 "message"
                (VStr "Cannot read properties of undefined (reading 'data')"))]
     |}).
Proof. vm_compute. reflexivity. Qed.

(** ** Listing and counting *)

Section FindAll.

Context {S : Type} (c : collab S).

(** C4: when the validation accepts the request and [isCountOnly] is
    truthy, [findAllBlog] never calls [getAllDocuments]; and when the count
    operation returns [totalRecords], the handler does exactly this: it
    validates, counts with the query of the body, and answers success with
    [{ data: { totalRecords } }]. *)
Theorem count_only_skips_listing (req : request) (s s1 : S)
    (validateRequest q isCountOnly : value) :
  call c validateFilterWithJoi
    [body req; findFilterKeys c; Blog_schema_obj c] s
    = (Ret validateRequest, s1) ->
  accepted validateRequest ->
  get_prop (body req) "query" = Ret q ->
  get_prop (body req) "isCountOnly" = Ret isCountOnly ->
  truthy isCountOnly = true ->
  Forall (fun ev => forall args, ev <> Call getAllDocuments args)
    (trace (run (findAllBlog c) req s).2) /\
  forall totalRecords s2,
    call c countDocument [Blog c; object_or_empty q] s1
      = (Ret totalRecords, s2) ->
    run (findAllBlog c) req s =
      (Ret tt,
       {| store := s2;
          trace :=
            [Call validateFilterWithJoi
               [body req; findFilterKeys c; Blog_schema_obj c];
             Call countDocument [Blog c; object_or_empty q];
             Reply success
               (obj1 "data" (obj1 "totalRecords" totalRecords))] |}).
Proof.
  intros Hval Hacc Hq Hco Hcount. accept Hacc. unfold object_or_empty.
  split.
  - destruct (run (findAllBlog c) req s) as [r w] eqn:E.
    run_in E; injection E as <- <-; simpl; repeat constructor; done.
  - intros totalRecords s2 Hcall.
    destruct (run (findAllBlog c) req s) as [r w] eqn:E.
    by run_in E.
Qed.

(** C6: when the validation accepts the request, [isCountOnly] is falsy
    and the store returns [foundBlogs] for the query and the options of the
    body, [findAllBlog] validates, lists and answers once. The answer is
    record-not-found when [foundBlogs] is [undefined] or [null], when it has
    no [data] and when its [data] is the empty list; it is success with
    [{ data: foundBlogs }] when its [data] is a non-empty list. *)
Theorem findAll_lists_or_not_found (req : request) (s s1 s2 : S)
    (validateRequest q isCountOnly o foundBlogs : value) :
  call c validateFilterWithJoi
    [body req; findFilterKeys c; Blog_schema_obj c] s
    = (Ret validateRequest, s1) ->
  accepted validateRequest ->
  get_prop (body req) "query" = Ret q ->
  get_prop (body req) "isCountOnly" = Ret isCountOnly ->
  truthy isCountOnly = false ->
  get_prop (body req) "options" = Ret o ->
  call c getAllDocuments
    [Blog c; object_or_empty q;
     if truthy (body req) then object_or_empty o else VObj ∅] s1
    = (Ret foundBlogs, s2) ->
  exists answer,
    run (findAllBlog c) req s =
      (Ret tt,
       {| store := s2;
          trace :=
            [Call validateFilterWithJoi
               [body req; findFilterKeys c; Blog_schema_obj c];
             Call getAllDocuments
               [Blog c; object_or_empty q;
                if truthy (body req) then object_or_empty o else VObj ∅];
             answer] |}) /\
    (foundBlogs = VUndef \/ foundBlogs = VNull \/
     get_prop foundBlogs "data" = Ret VUndef \/
     get_prop foundBlogs "data" = Ret VNull \/
     get_prop foundBlogs "data" = Ret (VArr []) ->
     answer = Reply recordNotFound VUndef) /\
    (forall x l,
       get_prop foundBlogs "data" = Ret (VArr (x :: l)) ->
       answer = Reply success (obj1 "data" foundBlogs)).
Proof.
  intros Hval Hacc Hq Hco Hcount Ho Hcall. accept Hacc.
  unfold object_or_empty in *.
  destruct (run (findAllBlog c) req s) as [r w] eqn:E.
  destruct (truthy (body req)) eqn:Hb;
    run_in E; injection E as <- <-; eexists; (split; [reflexivity|]);
    (split; [intros Hnone | intros x l Hdata]); try done.
  all: try (destruct Hnone as [-> | [-> | [H | [H | H]]]];
            simplify_eq/=; done).
  all: try (rewrite Hdata in *; simplify_eq/=; done).
  all: try (apply get_prop_throw in Hdata as [[-> | ->] _]; done).
  all: try (match goal with
            | N : ?a = VUndef \/ ?a = VNull, H : truthy ?a = true |- _ =>
                destruct N as [-> | ->]; discriminate H
            end).
  all: match goal with
       | F : truthy ?f = false, D : get_prop ?f "data" = _ |- _ =>
           by pose proof (falsy_no_data _ _ F D)
       end.
Qed.

End FindAll.

(** ** Handlers addressed by a path id *)

Section PathId.

Context {S : Type} (c : collab S).

(** C7: when [ObjectId.isValid] rejects the path id, [getBlog] answers
    with a validation error and calls nothing else; when it accepts the id
    and the store returns [foundBlog], the handler has read that one
    document and answers record-not-found if there is none and success
    otherwise. In every run, a call of the store means that the id was
    accepted. *)
Theorem getBlog_checks_object_id (req : request) (s s1 : S) (valid : value) :
  call c ObjectId_isValid [param_id req] s = (Ret valid, s1) ->
  (truthy valid = false ->
   run (getBlog c) req s =
     (Ret tt,
      {| store := s1;
         trace :=
           [Call ObjectId_isValid [param_id req];
            Reply validationError
              (obj1 "message" (VStr "invalid objectId."))] |})) /\
  (truthy valid = true ->
   forall foundBlog s2,
     call c getSingleDocument
       [Blog c; obj1 "_id" (param_id req); VObj ∅] s1
       = (Ret foundBlog, s2) ->
     run (getBlog c) req s =
       (Ret tt,
        {| store := s2;
           trace :=
             [Call ObjectId_isValid [param_id req];
              Call getSingleDocument
                [Blog c; obj1 "_id" (param_id req); VObj ∅];
              if truthy foundBlog
              then Reply success (obj1 "data" foundBlog)
              else Reply recordNotFound VUndef] |})) /\
  (Exists (fun ev => is_store_call ev = true)
     (trace (run (getBlog c) req s).2) ->
   truthy valid = true).
Proof.
  intros Hvalid. split; [|split].
  - intros Hno. destruct (run (getBlog c) req s) as [r w] eqn:E.
    by run_in E.
  - intros Hyes foundBlog s2 Hcall.
    destruct (run (getBlog c) req s) as [r w] eqn:E.
    by run_in E.
  - intros Hex. destruct (truthy valid) eqn:Hv; [done|exfalso].
    destruct (run (getBlog c) req s) as [r w] eqn:E.
    run_in E; injection E as <- <-; simpl in Hex.
    repeat (apply Exists_cons in Hex as [Hev|Hex]; [discriminate|]).
    by apply Exists_nil in Hex.
Qed.

(** C8: without a path id, [partialUpdateBlog] calls the bad-request
    helper and goes on. With a body and a user it then validates the
    update; when the validation accepts it, the store update is called with
    the query [{ _id: undefined }], and a second response helper is called
    for the same request. *)
Theorem partialUpdate_goes_on_without_id (req : request) (s s1 s2 : S)
    (body' id validateRequest updatedBlog : value) :
  params req !! "id" = None ->
  delete_prop (body req) "addedBy" = Ret body' ->
  get_prop (user req) "id" = Ret id ->
  call c validateParamsWithJoi
    [VObj (<["updatedBy" := id]> (spread_obj body')); updateSchemaKeys c] s
    = (Ret validateRequest, s1) ->
  accepted validateRequest ->
  call c findOneAndUpdateDocument
    [Blog c; obj1 "_id" VUndef;
     VObj (<["updatedBy" := id]> (spread_obj body'));
     obj1 "new" (VBool true)] s1
    = (Ret updatedBlog, s2) ->
  run (partialUpdateBlog c) req s =
    (Ret tt,
     {| store := s2;
        trace :=
          [Reply badRequest VUndef;
           Call validateParamsWithJoi
             [VObj (<["updatedBy" := id]> (spread_obj body'));
              updateSchemaKeys c];
           Call findOneAndUpdateDocument
             [Blog c; obj1 "_id" VUndef;
              VObj (<["updatedBy" := id]> (spread_obj body'));
              obj1 "new" (VBool true)];
           if truthy updatedBlog
           then Reply success (obj1 "data" updatedBlog)
           else Reply recordNotFound VUndef] |}).
Proof.
  intros Hid Hdel Huser Hval Hacc Hcall. accept Hacc.
  destruct (run (partialUpdateBlog c) req s) as [r w] eqn:E.
  assert (Hp : param_id req = VUndef) by (unfold param_id; by rewrite Hid).
  norm_in E. rewrite !Hp in E. change (truthy VUndef) with false in E.
  by run_in E.
Qed.

(** C9: [updateBlog] looks at the path id nowhere before the store call.
    With a user, the first thing it does is to validate the body, and when
    the validation accepts it the next thing is the store update with the
    query [{ _id: req.params.id }], whatever [req.params.id] is. On a
    request without path id [deleteBlog] and [softDeleteBlog] answer
    bad-request and call nothing, and [getBlog] answers with a validation
    error when [ObjectId.isValid] rejects the id. *)
Theorem updateBlog_does_not_check_id (req : request) (s s1 : S)
    (id validateRequest : value) :
  get_prop (user req) "id" = Ret id ->
  call c validateParamsWithJoi
    [VObj (<["updatedBy" := id]> (spread_obj (body req)));
     updateSchemaKeys c] s
    = (Ret validateRequest, s1) ->
  accepted validateRequest ->
  (exists rest,
     trace (run (updateBlog c) req s).2 =
       Call validateParamsWithJoi
         [VObj (<["updatedBy" := id]> (spread_obj (body req)));
          updateSchemaKeys c]
       :: Call findOneAndUpdateDocument
            [Blog c; obj1 "_id" (param_id req);
             VObj (<["updatedBy" := id]> (spread_obj (body req)));
             obj1 "new" (VBool true)]
       :: rest) /\
  (truthy (param_id req) = false ->
   run (deleteBlog c) req s =
     (Ret tt, {| store := s; trace := [Reply badRequest VUndef] |}) /\
   run (softDeleteBlog c) req s =
     (Ret tt, {| store := s; trace := [Reply badRequest VUndef] |})) /\
  (forall valid s',
     call c ObjectId_isValid [param_id req] s = (Ret valid, s') ->
     truthy valid = false ->
     run (getBlog c) req s =
       (Ret tt,
        {| store := s';
           trace :=
             [Call ObjectId_isValid [param_id req];
              Reply validationError
                (obj1 "message" (VStr "invalid objectId."))] |})).
Proof.
  intros Huser Hval Hacc. accept Hacc. split; [|split].
  - destruct (run (updateBlog c) req s) as [r w] eqn:E.
    run_in E; injection E as <- <-; simpl; eauto.
  - intros Hno. split.
    + destruct (run (deleteBlog c) req s) as [r w] eqn:E. by run_in E.
    + destruct (run (softDeleteBlog c) req s) as [r w] eqn:E. by run_in E.
  - intros valid s' Hvalid Hno.
    destruct (run (getBlog c) req s) as [r w] eqn:E. by run_in E.
Qed.

End PathId.

(** ** The theorems at work on the reference store *)

Lemma ref_accepts : accepted RefStore.valid.
Proof. exists (VBool true). by split. Qed.

Lemma count_only_skips_listing_witness :
  call RefStore.ref validateFilterWithJoi
    [body count_only; findFilterKeys RefStore.ref;
     Blog_schema_obj RefStore.ref] two_posts
    = (Ret RefStore.valid, two_posts) /\
  accepted RefStore.valid /\
  get_prop (body count_only) "query" = Ret VUndef /\
  get_prop (body count_only) "isCountOnly" = Ret (VBool true) /\
  truthy (VBool true) = true /\
  run (findAllBlog RefStore.ref) count_only two_posts =
    (Ret tt,
     {| store := two_posts;
        trace :=
          [Call validateFilterWithJoi
             [body count_only; findFilterKeys RefStore.ref;
              Blog_schema_obj RefStore.ref];
           Call countDocument [Blog RefStore.ref; object_or_empty VUndef];
           Reply success (obj1 "data" (obj1 "totalRecords" (VNum 2)))] |}).
Proof.
  split; [reflexivity|]. split; [exact ref_accepts|].
  split; [reflexivity|]. split; [reflexivity|]. split; [reflexivity|].
  exact (proj2
    (count_only_skips_listing RefStore.ref count_only two_posts two_posts
       RefStore.valid VUndef (VBool true)
       eq_refl ref_accepts eq_refl eq_refl eq_refl)
    (VNum 2) two_posts eq_refl).
Defined.

Lemma findAll_lists_or_not_found_witness :
  call RefStore.ref validateFilterWithJoi
    [body list_all; findFilterKeys RefStore.ref;
     Blog_schema_obj RefStore.ref] two_posts
    = (Ret RefStore.valid, two_posts) /\
  accepted RefStore.valid /\
  get_prop (body list_all) "query" = Ret VUndef /\
  get_prop (body list_all) "isCountOnly" = Ret VUndef /\
  truthy VUndef = false /\
  get_prop (body list_all) "options" = Ret VUndef /\
  call RefStore.ref getAllDocuments
    [Blog RefStore.ref; object_or_empty VUndef;
     if truthy (body list_all) then object_or_empty VUndef else VObj ∅]
    two_posts
    = (Ret (obj1 "data" (VArr (VObj <$> two_posts))), two_posts) /\
  exists answer,
    (run (findAllBlog RefStore.ref) list_all two_posts).1 = Ret tt /\
    last (trace (run (findAllBlog RefStore.ref) list_all two_posts).2)
      = Some answer /\
    answer = Reply success (obj1 "data" (obj1 "data" (VArr (VObj <$> two_posts)))).
Proof.
  split; [reflexivity|]. split; [exact ref_accepts|].
  split; [reflexivity|]. split; [reflexivity|]. split; [reflexivity|].
  split; [reflexivity|]. split; [reflexivity|].
  destruct (findAll_lists_or_not_found RefStore.ref list_all
              two_posts two_posts two_posts RefStore.valid
              VUndef VUndef VUndef (obj1 "data" (VArr (VObj <$> two_posts)))
              eq_refl ref_accepts eq_refl eq_refl eq_refl eq_refl eq_refl)
    as (answer & Hrun & _ & Hlist).
  exists answer. rewrite Hrun. split; [reflexivity|]. split; [reflexivity|].
  exact (Hlist _ _ eq_refl).
Defined.

Lemma getBlog_checks_object_id_witness :
  call RefStore.ref ObjectId_isValid [param_id get_p1] two_posts
    = (Ret (VBool false), two_posts) /\
  run (getBlog RefStore.ref) get_p1 two_posts =
    (Ret tt,
     {| store := two_posts;
        trace :=
          [Call ObjectId_isValid [param_id get_p1];
           Reply validationError
             (obj1 "message" (VStr "invalid objectId."))] |}).
Proof.
  split; [reflexivity|].
  exact (proj1
    (getBlog_checks_object_id RefStore.ref get_p1 two_posts two_posts
       (VBool false) eq_refl) eq_refl).
Defined.

Lemma partialUpdate_goes_on_without_id_witness :
  params patch_without_id !! "id" = None /\
  delete_prop (body patch_without_id) "addedBy"
    = Ret (body patch_without_id) /\
  get_prop (user patch_without_id) "id" = Ret (VStr "alice") /\
  call RefStore.ref validateParamsWithJoi
    [VObj (<["updatedBy" := VStr "alice"]>
             (spread_obj (body patch_without_id)));
     updateSchemaKeys RefStore.ref] two_posts
    = (Ret RefStore.valid, two_posts) /\
  accepted RefStore.valid /\
  call RefStore.ref findOneAndUpdateDocument
    [Blog RefStore.ref; obj1 "_id" VUndef;
     VObj (<["updatedBy" := VStr "alice"]>
             (spread_obj (body patch_without_id)));
     obj1 "new" (VBool true)] two_posts
    = (Ret VNull, two_posts) /\
  trace (run (partialUpdateBlog RefStore.ref) patch_without_id two_posts).2 =
    [Reply badRequest VUndef;
     Call validateParamsWithJoi
       [VObj (<["updatedBy" := VStr "alice"]>
                (spread_obj (body patch_without_id)));
        updateSchemaKeys RefStore.ref];
     Call findOneAndUpdateDocument
       [Blog RefStore.ref; obj1 "_id" VUndef;
        VObj (<["updatedBy" := VStr "alice"]>
                (spread_obj (body patch_without_id)));
        obj1 "new" (VBool true)];
     Reply recordNotFound VUndef].
Proof.
  split; [reflexivity|]. split; [reflexivity|]. split; [reflexivity|].
  split; [reflexivity|]. split; [exact ref_accepts|]. split; [reflexivity|].
  exact (f_equal (fun x => trace x.2)
    (partialUpdate_goes_on_without_id RefStore.ref patch_without_id
       two_posts two_posts two_posts (body patch_without_id) (VStr "alice")
       RefStore.valid VNull
       eq_refl eq_refl eq_refl eq_refl ref_accepts eq_refl)).
Defined.

Lemma updateBlog_does_not_check_id_witness :
  get_prop (user patch_without_id) "id" = Ret (VStr "alice") /\
  call RefStore.ref validateParamsWithJoi
    [VObj (<["updatedBy" := VStr "alice"]>
             (spread_obj (body patch_without_id)));
     updateSchemaKeys RefStore.ref] two_posts
    = (Ret RefStore.valid, two_posts) /\
  accepted RefStore.valid /\
  exists rest,
    trace (run (updateBlog RefStore.ref) patch_without_id two_posts).2 =
      Call validateParamsWithJoi
        [VObj (<["updatedBy" := VStr "alice"]>
                 (spread_obj (body patch_without_id)));
         updateSchemaKeys RefStore.ref]
      :: Call findOneAndUpdateDocument
           [Blog RefStore.ref; obj1 "_id" (param_id patch_without_id);
            VObj (<["updatedBy" := VStr "alice"]>
                    (spread_obj (body patch_without_id)));
            obj1 "new" (VBool true)]
      :: rest.
Proof.
  split; [reflexivity|]. split; [reflexivity|]. split; [exact ref_accepts|].
  exact (proj1
    (updateBlog_does_not_check_id RefStore.ref patch_without_id
       two_posts two_posts (VStr "alice") RefStore.valid
       eq_refl eq_refl ref_accepts)).
Defined.

(** ** Further properties of the handlers *)

Section Shape.

Context {S : Type} (c : collab S).

(** One symbolic run of every handler, for the facts that can be read off
    the trace. *)
Lemma run_shape (h : handler) (req : request) (s : S) :
  let tr := trace (run (exported c h) req s).2 in
  (store_calls tr <= 1)%nat /\
  (replies tr <=
     if match h with h_partialUpdateBlog => true | _ => false end
        && negb (truthy (param_id req))
     then 2 else 1)%nat /\
  (answered_early tr = true ->
   h = h_partialUpdateBlog /\ truthy (param_id req) = false) /\
  Forall (fun ev => forall r p, ev = Reply r p -> reply_shape r p) tr /\
  sublist (called tr) (operations_of h) /\
  (nullish (user req) -> needs_user h = true -> store_calls tr = 0%nat) /\
  (validating h = true -> (0 < store_calls tr)%nat ->
   exists o args validateRequest s1,
     is_validation_op o = true /\
     In (Call o args) tr /\
     call c o args s = (Ret validateRequest, s1) /\
     accepted validateRequest).
Proof.
  destruct (run (exported c h) req s) as [r w] eqn:E.
  destruct h; run_in E; injection E as <- <-; cbn [trace snd].
  all: try match goal with
           | F : truthy ?b = false, G : get_prop ?b "data" = Ret ?a,
             H : spread_arr _ ?a = Ret _ |- _ =>
               rewrite (falsy_no_data _ _ F G) in H; discriminate H
           end.
  all: try match goal with
           | N : no_items ?a = false, H : spread_arr _ ?a = Ret _ |- _ =>
               apply no_items_false in N as (? & ? & ->); injection H as <-
           end.
  all: split; [cbn; lia|].
  all: split; [cbn; repeat case_match; simpl; lia|].
  all: split; [cbn; first [discriminate | intros _; by split]|].
  all: split; [repeat constructor; intros ? ? [= <- <-]; simpl; eauto|].
  all: split; [cbn; repeat constructor|].
  all: split;
    [ intros [Hu|Hu] Hn; try discriminate Hn; try reflexivity;
      exfalso;
      repeat match goal with
             | G : get_prop (user _) "id" = Ret _ |- _ =>
                 rewrite Hu in G; discriminate G
             | G : add_addedBy (user _) (_ :: _) = Ret _ |- _ =>
                 rewrite Hu in G; discriminate G
             end | ].
  all: intros Hv Hpos; try discriminate Hv; cbn in Hpos; try lia.
  all: match goal with
       | H : call c ?o ?a ?s0 = (Ret ?vr, ?s1),
         G : get_prop ?vr "isValid" = Ret ?iv,
         T : truthy ?iv = true |- _ =>
           exists o, a, vr, s1; split; [reflexivity|];
           split; [simpl; tauto|]; split; [exact H|];
           exists iv; by split
       end.
Qed.

End Shape.

Section TraceFacts.

Context {S : Type} (c : collab S).

(** X1: A request costs the store one operation at most: no handler calls
    [dbService] twice, whatever the collaborators answer. *)
Theorem one_store_operation_per_request (h : handler) (req : request) (s : S) :
  (store_calls (trace (run (exported c h) req s).2) <= 1)%nat.
Proof. exact (proj1 (run_shape c h req s)). Qed.

(** X3: The response helpers are called with [{ data }] on success, with
    [{ message }] (a string for a validation error) on an error, and
    without argument for record-not-found and bad-request. *)
Theorem responses_have_contract_shape (h : handler) (req : request) (s : S) :
  Forall (fun ev => forall r p, ev = Reply r p -> reply_shape r p)
    (trace (run (exported c h) req s).2).
Proof. exact (proj1 (proj2 (proj2 (proj2 (run_shape c h req s))))). Qed.

(** X4: In every run the collaborator operations a handler calls are among
    those of its text, each at most once and in the order of the text. So
    the read handlers never write, [bulkInsertBlog] and [bulkUpdateBlog]
    never call the validation service, only [getBlog] calls
    [ObjectId.isValid] and only [addBlog] the model constructor. *)
Theorem handler_calls_only_its_operations (h : handler) (req : request)
    (s : S) :
  sublist (called (trace (run (exported c h) req s).2)) (operations_of h).
Proof.
  exact (proj1 (proj2 (proj2 (proj2 (proj2 (run_shape c h req s)))))).
Qed.

(** X5: Without [req.user] the handlers that stamp a document with the user
    id never reach the store: reading [req.user.id] throws first. *)
Theorem no_user_no_store_call (h : handler) (req : request) (s : S) :
  nullish (user req) ->
  needs_user h = true ->
  store_calls (trace (run (exported c h) req s).2) = 0%nat.
Proof.
  exact (proj1 (proj2 (proj2 (proj2 (proj2 (proj2 (run_shape c h req s))))))).
Qed.

(** X6: In the handlers that validate, the store is reached only after the
    validation service was called, on the store as the request found it,
    and accepted the request. *)
Theorem store_call_after_accepted_validation (h : handler) (req : request)
    (s : S) :
  validating h = true ->
  (0 < store_calls (trace (run (exported c h) req s).2))%nat ->
  exists o args validateRequest s1,
    is_validation_op o = true /\
    In (Call o args) (trace (run (exported c h) req s).2) /\
    call c o args s = (Ret validateRequest, s1) /\
    accepted validateRequest.
Proof.
  exact (proj2 (proj2 (proj2 (proj2 (proj2 (proj2 (run_shape c h req s))))))).
Qed.

(** X8: [addBlog] creates nothing when the validation service rejects the
    body: it answers with a validation error that quotes the message of
    the service, and neither the model constructor nor the store is
    called. *)
Theorem addBlog_rejects_invalid_body (req : request) (s s1 : S)
    (validateRequest isValid message : value) :
  call c validateParamsWithJoi
    [VObj (spread_obj (if truthy (body req) then body req else VObj ∅));
     schemaKeys c] s
    = (Ret validateRequest, s1) ->
  get_prop validateRequest "isValid" = Ret isValid ->
  truthy isValid = false ->
  get_prop validateRequest "message" = Ret message ->
  run (addBlog c) req s =
    (Ret tt,
     {| store := s1;
        trace :=
          [Call validateParamsWithJoi
             [VObj (spread_obj
                      (if truthy (body req) then body req else VObj ∅));
              schemaKeys c];
           Reply validationError
             (obj1 "message"
                (VStr ("Invalid values in parameters, "
                       +:+ to_string message)))] |}).
Proof.
  intros Hval Hiv Hno Hmsg.
  destruct (run (addBlog c) req s) as [r w] eqn:E. by run_in E.
Qed.

(** X9: [addBlog] on an accepted body: the validation service is shown the
    body as the client sent it (a missing body counts as [{}]), the model
    is built from the body with [addedBy] set to the user id, the store
    creates what the constructor returned, and the answer is success with
    what the store returned. *)
Theorem addBlog_creates_document (req : request) (s s1 s2 s3 : S)
    (validateRequest id doc createdBlog : value) :
  call c validateParamsWithJoi
    [VObj (spread_obj (if truthy (body req) then body req else VObj ∅));
     schemaKeys c] s
    = (Ret validateRequest, s1) ->
  accepted validateRequest ->
  get_prop (user req) "id" = Ret id ->
  call c newBlog
    [VObj (<["addedBy" := id]>
             (spread_obj (if truthy (body req) then body req else VObj ∅)))]
    s1
    = (Ret doc, s2) ->
  call c createDocument [Blog c; doc] s2 = (Ret createdBlog, s3) ->
  run (addBlog c) req s =
    (Ret tt,
     {| store := s3;
        trace :=
          [Call validateParamsWithJoi
             [VObj (spread_obj
                      (if truthy (body req) then body req else VObj ∅));
              schemaKeys c];
           Call newBlog
             [VObj (<["addedBy" := id]>
                      (spread_obj
                         (if truthy (body req) then body req else VObj ∅)))];
           Call createDocument [Blog c; doc];
           Reply success (obj1 "data" createdBlog)] |}).
Proof.
  intros Hval Hacc Hid Hnew Hcreate. accept Hacc.
  destruct (run (addBlog c) req s) as [r w] eqn:E. by run_in E.
Qed.

(** X10: [getBlogCount] validates the body against the filter keys alone.
    When the service rejects it the answer is a validation error with the
    message of the service and nothing is counted; when it accepts, the
    documents that match [req.body.where] (every document when [where] is
    not an object) are counted and the answer is success with
    [{ data: { totalRecords } }]. *)
Theorem getBlogCount_counts (req : request) (s s1 : S)
    (validateRequest isValid : value) :
  call c validateFilterWithJoi [body req; findFilterKeys c] s
    = (Ret validateRequest, s1) ->
  get_prop validateRequest "isValid" = Ret isValid ->
  (truthy isValid = false ->
   forall message,
     get_prop validateRequest "message" = Ret message ->
     run (getBlogCount c) req s =
       (Ret tt,
        {| store := s1;
           trace :=
             [Call validateFilterWithJoi [body req; findFilterKeys c];
              Reply validationError
                (obj1 "message" (VStr (to_string message)))] |})) /\
  (truthy isValid = true ->
   forall where_ totalRecords s2,
     get_prop (body req) "where" = Ret where_ ->
     call c countDocument [Blog c; object_or_empty where_] s1
       = (Ret totalRecords, s2) ->
     run (getBlogCount c) req s =
       (Ret tt,
        {| store := s2;
           trace :=
             [Call validateFilterWithJoi [body req; findFilterKeys c];
              Call countDocument [Blog c; object_or_empty where_];
              Reply success
                (obj1 "data" (obj1 "totalRecords" totalRecords))] |})).
Proof.
  intros Hval Hiv. unfold object_or_empty. split.
  - intros Hno message Hmsg.
    destruct (run (getBlogCount c) req s) as [r w] eqn:E. by run_in E.
  - intros Hyes where_ totalRecords s2 Hwhere Hcount.
    destruct (run (getBlogCount c) req s) as [r w] eqn:E. by run_in E.
Qed.

(** X11: [deleteBlog] with a path id calls the store once, to delete the
    document with that id, whatever the id looks like. It answers success
    with the deleted document, record-not-found when the store found
    none, and internal-server-error with the error's message when the
    store failed. *)
Theorem deleteBlog_deletes_by_id (req : request) (s : S) :
  truthy (param_id req) = true ->
  (forall deletedBlog s1,
     call c findOneAndDeleteDocument
       [Blog c; obj1 "_id" (param_id req)] s = (Ret deletedBlog, s1) ->
     run (deleteBlog c) req s =
       (Ret tt,
        {| store := s1;
           trace :=
             [Call findOneAndDeleteDocument
                [Blog c; obj1 "_id" (param_id req)];
              if truthy deletedBlog
              then Reply success (obj1 "data" deletedBlog)
              else Reply recordNotFound VUndef] |})) /\
  (forall error message s1,
     call c findOneAndDeleteDocument
       [Blog c; obj1 "_id" (param_id req)] s = (Throw error, s1) ->
     get_prop error "message" = Ret message ->
     run (deleteBlog c) req s =
       (Ret tt,
        {| store := s1;
           trace :=
             [Call findOneAndDeleteDocument
                [Blog c; obj1 "_id" (param_id req)];
              Reply internalServerError (obj1 "message" message)] |})).
Proof.
  intros Hid. split.
  - intros deletedBlog s1 Hcall.
    destruct (run (deleteBlog c) req s) as [r w] eqn:E. by run_in E.
  - intros error message s1 Hcall Hmsg.
    destruct (run (deleteBlog c) req s) as [r w] eqn:E. by run_in E.
Qed.

(** X12: [deleteManyBlog] with a non-empty list of ids calls the store once,
    with the query [{ _id: { $in: ids } }] on the ids as sent, and answers
    success with what the store returned, or record-not-found when that is
    falsy, as a count of 0 is. *)
Theorem deleteManyBlog_deletes_by_ids (req : request) (s s1 : S)
    (x : value) (l : list value) (deletedBlog : value) :
  get_prop (body req) "ids" = Ret (VArr (x :: l)) ->
  call c deleteMany
    [Blog c; obj1 "_id" (obj1 "$in" (VArr (x :: l)))] s
    = (Ret deletedBlog, s1) ->
  run (deleteManyBlog c) req s =
    (Ret tt,
     {| store := s1;
        trace :=
          [Call deleteMany
             [Blog c; obj1 "_id" (obj1 "$in" (VArr (x :: l)))];
           if truthy deletedBlog
           then Reply success (obj1 "data" deletedBlog)
           else Reply recordNotFound VUndef] |}) /\
  (deletedBlog = VNum 0 ->
   last (trace (run (deleteManyBlog c) req s).2)
     = Some (Reply recordNotFound VUndef)).
Proof.
  intros Hids Hcall.
  assert (Hno : no_ids (VArr (x :: l)) = false).
  { unfold no_ids, no_items. simpl. apply Z.ltb_ge. lia. }
  destruct (run (deleteManyBlog c) req s) as [r w] eqn:E.
  run_in E; injection E as <- <-; (split; [done|]);
    intros ->; simpl in *; done.
Qed.

(** X13: A bulk update whose body has no [filter], or a falsy one, is sent to
    the store with the empty filter [{}], which selects every document. *)
Theorem bulkUpdate_without_filter_matches_all (req : request) (s : S)
    (f : value) :
  get_prop (body req) "filter" = Ret f ->
  truthy f = false ->
  Forall (fun ev => forall args, ev = Call bulkUpdate args ->
            exists payload, args = [Blog c; VObj ∅; payload])
    (trace (run (bulkUpdateBlog c) req s).2).
Proof.
  intros Hf Hfalsy.
  destruct (run (bulkUpdateBlog c) req s) as [r w] eqn:E.
  run_in E; rewrite ?Hfalsy in E; injection E as <- <-; simpl;
    call_events; eauto.
Qed.

End TraceFacts.

Section Responses.

Context {S : Type} (c : collab S).

(** X2: A handler calls a response helper at most twice per request: once
    in the try block and, when that call or something before it throws,
    once in the catch block. [partialUpdateBlog] on a request without path
    id calls one more, the bad-request helper it does not return from.
    When the helpers return, a handler answers at most once ([partialUpdateBlog]
    without path id: twice) and does nothing after it has answered, the
    same exception apart. *)
Theorem one_response_per_request (res : helpers) (h : handler)
    (req : request) (s : S) :
  (replies (trace (run_with res (exported c h) req s).2) <=
     if match h with h_partialUpdateBlog => true | _ => false end
        && negb (truthy (param_id req))
     then 3 else 2)%nat /\
  ((forall r p tr, res r p tr = Ret tt) ->
   (replies (trace (run_with res (exported c h) req s).2) <=
      if match h with h_partialUpdateBlog => true | _ => false end
         && negb (truthy (param_id req))
      then 2 else 1)%nat /\
   (answered_early (trace (run_with res (exported c h) req s).2) = true ->
    h = h_partialUpdateBlog /\ truthy (param_id req) = false)).
Proof.
  destruct (run_with res (exported c h) req s) as [r w] eqn:E.
  destruct h; run_in E; injection E as <- <-; cbn [trace snd].
  all: split; [cbn; repeat case_match; simpl; lia|].
  all: intros Hret;
    try match goal with
        | H : _ = @Throw unit _ |- _ =>
            rewrite Hret in H; discriminate H
        end.
  all: split; [cbn; repeat case_match; simpl; lia|].
  all: cbn; first [discriminate | intros _; by split].
Qed.

End Responses.

Lemma one_response_per_request_witness :
  (forall r p tr, sends r p tr = Ret tt) /\
  (replies
     (trace (run_with sends (exported RefStore.ref h_deleteBlog)
               delete_p1 two_posts).2) <= 1)%nat.
Proof.
  split; [reflexivity|].
  exact (proj1 (proj2
    (one_response_per_request RefStore.ref sends h_deleteBlog
       delete_p1 two_posts) (fun _ _ _ => eq_refl))).
Defined.

(** With a response that can be sent once, [partialUpdateBlog] on a
    request without path id calls three helpers, the last two of which
    throw, and the second error leaves the handler. *)
Lemma partialUpdate_without_id_sends_thrice :
  run_with send_once (partialUpdateBlog RefStore.ref) patch_without_id
    two_posts =
    (Throw (js_error "Error"
              "Cannot set headers after they are sent to the client"),
     {| store := two_posts;
        trace :=
          [Reply badRequest VUndef;
           Call validateParamsWithJoi
             [VObj (<["updatedBy" := VStr "alice"]>
                      (spread_obj (body patch_without_id)));
              VStr "updateSchemaKeys"];
           Call findOneAndUpdateDocument
             [VStr "Blog"; obj1 "_id" VUndef;
              VObj (<["updatedBy" := VStr "alice"]>
                      (spread_obj (body patch_without_id)));
              obj1 "new" (VBool true)];
           Reply recordNotFound VUndef;
           Reply internalServerError
             (obj1 "message"
                (VStr "Cannot set headers after they are sent to the client"))]
     |}).
Proof. vm_compute. reflexivity. Qed.

Section WritePaths.

Context {S : Type} (c : collab S).

Lemma add_addedBy_stamps usr id items :
  get_prop usr "id" = Ret id ->
  add_addedBy usr items = Ret (stamp id <$> items).
Proof.
  intros Hid. induction items as [|item rest IH]; simpl; [done|].
  by rewrite Hid, IH.
Qed.

Lemma no_items_cons x l : no_items (VArr (x :: l)) = false.
Proof. unfold no_items. simpl. apply Z.ltb_ge. lia. Qed.

(** X14: [bulkInsertBlog] on a non-empty [data] array: the store is handed as
    many documents as the client sent, in the same order, each with
    [addedBy] set to the user id, in one call and without any validation;
    the answer is success with what the store returned. *)
Theorem bulkInsertBlog_inserts_stamped (req : request) (s s1 : S)
    (x : value) (l : list value) (id createdBlogs : value) :
  get_prop (body req) "data" = Ret (VArr (x :: l)) ->
  get_prop (user req) "id" = Ret id ->
  call c bulkInsert [Blog c; VArr (stamp id <$> x :: l)] s
    = (Ret createdBlogs, s1) ->
  run (bulkInsertBlog c) req s =
    (Ret tt,
     {| store := s1;
        trace :=
          [Call bulkInsert [Blog c; VArr (stamp id <$> x :: l)];
           Reply success (obj1 "data" createdBlogs)] |}).
Proof.
  intros Hdata Hid Hcall.
  assert (Hb : truthy (body req) = true).
  { destruct (truthy (body req)) eqn:Hb; [done|].
    by pose proof (falsy_no_data _ _ Hb Hdata). }
  pose proof (no_items_cons x l) as Hitems.
  assert (Hsp : spread_arr "req.body.data" (VArr (x :: l)) = Ret (x :: l))
    by done.
  pose proof (add_addedBy_stamps (user req) id (x :: l) Hid) as Hadd.
  destruct (run (bulkInsertBlog c) req s) as [r w] eqn:E. by run_in E.
Qed.

(** X15: [partialUpdateBlog] with a path id answers once: the body without
    [addedBy] and with [updatedBy] set to the user id is validated and,
    when accepted, written to the document with that id; the answer is
    success with the updated document or record-not-found. *)
Theorem partialUpdateBlog_updates_by_id (req : request) (s s1 s2 : S)
    (body' id validateRequest updatedBlog : value) :
  truthy (param_id req) = true ->
  delete_prop (body req) "addedBy" = Ret body' ->
  get_prop (user req) "id" = Ret id ->
  call c validateParamsWithJoi
    [VObj (<["updatedBy" := id]> (spread_obj body')); updateSchemaKeys c] s
    = (Ret validateRequest, s1) ->
  accepted validateRequest ->
  call c findOneAndUpdateDocument
    [Blog c; obj1 "_id" (param_id req);
     VObj (<["updatedBy" := id]> (spread_obj body'));
     obj1 "new" (VBool true)] s1
    = (Ret updatedBlog, s2) ->
  run (partialUpdateBlog c) req s =
    (Ret tt,
     {| store := s2;
        trace :=
          [Call validateParamsWithJoi
             [VObj (<["updatedBy" := id]> (spread_obj body'));
              updateSchemaKeys c];
           Call findOneAndUpdateDocument
             [Blog c; obj1 "_id" (param_id req);
              VObj (<["updatedBy" := id]> (spread_obj body'));
              obj1 "new" (VBool true)];
           if truthy updatedBlog
           then Reply success (obj1 "data" updatedBlog)
           else Reply recordNotFound VUndef] |}).
Proof.
  intros Hp Hdel Hid Hval Hacc Hcall. accept Hacc.
  destruct (run (partialUpdateBlog c) req s) as [r w] eqn:E. by run_in E.
Qed.

(** X16: [bulkUpdateBlog] with a truthy [filter] and an object as [data]: one
    store update, on the documents the copy of the filter selects, with
    the data less [addedBy] and with [updatedBy] set to the user id; the
    answer is success with what the store returned, or record-not-found
    when that is falsy. *)
Theorem bulkUpdateBlog_updates_filtered (req : request) (s s1 : S)
    (f data id result : value) :
  get_prop (body req) "filter" = Ret f ->
  truthy f = true ->
  get_prop (body req) "data" = Ret data ->
  is_object data = true ->
  get_prop (user req) "id" = Ret id ->
  call c bulkUpdate
    [Blog c; VObj (spread_obj f);
     VObj (<["updatedBy" := id]> (delete "addedBy" (spread_obj data)))] s
    = (Ret result, s1) ->
  run (bulkUpdateBlog c) req s =
    (Ret tt,
     {| store := s1;
        trace :=
          [Call bulkUpdate
             [Blog c; VObj (spread_obj f);
              VObj (<["updatedBy" := id]>
                      (delete "addedBy" (spread_obj data)))];
           if truthy result
           then Reply success (obj1 "data" result)
           else Reply recordNotFound VUndef] |}).
Proof.
  intros Hf Hft Hdata Hobj Hid Hcall.
  assert (Hb : truthy (body req) = true).
  { destruct (truthy (body req)) eqn:Hb; [done|].
    destruct (body req) as [| |b|n|t| |]; simpl in *; try discriminate;
      simplify_eq/=. destruct t; simplify_eq/=. }
  destruct (run (bulkUpdateBlog c) req s) as [r w] eqn:E.
  norm_in E. rewrite Hb in E. norm_in E. rewrite Hf in E. norm_in E.
  rewrite Hft in E. by run_in E.
Qed.

End WritePaths.

(** ** The further properties at work *)

Lemma no_user_no_store_call_witness :
  nullish (user anonymous_patch) /\
  needs_user h_partialUpdateBlog = true /\
  store_calls
    (trace (run (exported RefStore.ref h_partialUpdateBlog)
              anonymous_patch two_posts).2) = 0%nat.
Proof.
  split; [by left|]. split; [reflexivity|].
  exact (no_user_no_store_call RefStore.ref h_partialUpdateBlog
           anonymous_patch two_posts (or_introl eq_refl) eq_refl).
Defined.

Lemma store_call_after_accepted_validation_witness :
  validating h_updateBlog = true /\
  (0 < store_calls
         (trace (run (exported RefStore.ref h_updateBlog)
                   patch_p1 two_posts).2))%nat /\
  exists o args validateRequest s1,
    is_validation_op o = true /\
    In (Call o args)
       (trace (run (exported RefStore.ref h_updateBlog)
                 patch_p1 two_posts).2) /\
    call RefStore.ref o args two_posts = (Ret validateRequest, s1) /\
    accepted validateRequest.
Proof.
  split; [reflexivity|].
  split; [vm_compute; lia|].
  exact (store_call_after_accepted_validation RefStore.ref h_updateBlog
           patch_p1 two_posts eq_refl ltac:(vm_compute; lia)).
Defined.

Lemma addBlog_rejects_invalid_body_witness :
  call (oracle reject_all) validateParamsWithJoi
    [VObj (spread_obj (if truthy (body create_hello)
                       then body create_hello else VObj ∅));
     schemaKeys (oracle reject_all)] tt
    = (Ret rejection, tt) /\
  get_prop rejection "isValid" = Ret (VBool false) /\
  truthy (VBool false) = false /\
  get_prop rejection "message" = Ret (VStr "title is required") /\
  run (addBlog (oracle reject_all)) create_hello tt =
    (Ret tt,
     {| store := tt;
        trace :=
          [Call validateParamsWithJoi
             [VObj (spread_obj (if truthy (body create_hello)
                                then body create_hello else VObj ∅));
              schemaKeys (oracle reject_all)];
           Reply validationError
             (obj1 "message"
                (VStr "Invalid values in parameters, title is required"))]
     |}).
Proof.
  split; [reflexivity|]. split; [reflexivity|]. split; [reflexivity|].
  split; [reflexivity|].
  exact (addBlog_rejects_invalid_body (oracle reject_all) create_hello tt tt
           rejection (VBool false) (VStr "title is required")
           eq_refl eq_refl eq_refl eq_refl).
Defined.

Lemma addBlog_creates_document_witness :
  call RefStore.ref validateParamsWithJoi
    [body create_hello; schemaKeys RefStore.ref] two_posts
    = (Ret RefStore.valid, two_posts) /\
  accepted RefStore.valid /\
  get_prop (user create_hello) "id" = Ret (VStr "alice") /\
  call RefStore.ref newBlog [stamp (VStr "alice") (body create_hello)]
    two_posts
    = (Ret (stamp (VStr "alice") (body create_hello)), two_posts) /\
  call RefStore.ref createDocument
    [Blog RefStore.ref; stamp (VStr "alice") (body create_hello)] two_posts
    = (Ret (stamp (VStr "alice") (body create_hello)),
       (two_posts ++
        [<["addedBy" := VStr "alice"]> (<["title" := VStr "hello"]> ∅)])%list) /\
  run (addBlog RefStore.ref) create_hello two_posts =
    (Ret tt,
     {| store :=
          (two_posts ++
           [<["addedBy" := VStr "alice"]> (<["title" := VStr "hello"]> ∅)])%list;
        trace :=
          [Call validateParamsWithJoi
             [body create_hello; schemaKeys RefStore.ref];
           Call newBlog [stamp (VStr "alice") (body create_hello)];
           Call createDocument
             [Blog RefStore.ref; stamp (VStr "alice") (body create_hello)];
           Reply success
             (obj1 "data" (stamp (VStr "alice") (body create_hello)))] |}).
Proof.
  split; [reflexivity|]. split; [exact ref_accepts|].
  split; [reflexivity|]. split; [reflexivity|]. split; [reflexivity|].
  exact (addBlog_creates_document RefStore.ref create_hello
           two_posts two_posts two_posts _
           RefStore.valid (VStr "alice")
           (stamp (VStr "alice") (body create_hello))
           (stamp (VStr "alice") (body create_hello))
           eq_refl ref_accepts eq_refl eq_refl eq_refl).
Defined.

Lemma getBlogCount_counts_witness :
  call RefStore.ref validateFilterWithJoi
    [body count_by_author; findFilterKeys RefStore.ref] two_posts
    = (Ret RefStore.valid, two_posts) /\
  get_prop RefStore.valid "isValid" = Ret (VBool true) /\
  run (getBlogCount RefStore.ref) count_by_author two_posts =
    (Ret tt,
     {| store := two_posts;
        trace :=
          [Call validateFilterWithJoi
             [body count_by_author; findFilterKeys RefStore.ref];
           Call countDocument
             [Blog RefStore.ref; object_or_empty (obj1 "_id" (VStr "p2"))];
           Reply success
             (obj1 "data" (obj1 "totalRecords" (VNum 1)))] |}).
Proof.
  split; [reflexivity|]. split; [reflexivity|].
  exact (proj2
    (getBlogCount_counts RefStore.ref count_by_author two_posts two_posts
       RefStore.valid (VBool true) eq_refl eq_refl)
    eq_refl (obj1 "_id" (VStr "p2")) (VNum 1) two_posts eq_refl eq_refl).
Defined.

Lemma deleteBlog_deletes_by_id_witness :
  truthy (param_id delete_p1) = true /\
  run (deleteBlog RefStore.ref) delete_p1 two_posts =
    (Ret tt,
     {| store := [post "p2" "second" "carol"];
        trace :=
          [Call findOneAndDeleteDocument
             [Blog RefStore.ref; obj1 "_id" (param_id delete_p1)];
           Reply success (obj1 "data" (VObj (post "p1" "first" "bob")))] |}).
Proof.
  split; [reflexivity|].
  exact (proj1
    (deleteBlog_deletes_by_id RefStore.ref delete_p1 two_posts eq_refl)
    (VObj (post "p1" "first" "bob")) [post "p2" "second" "carol"] eq_refl).
Defined.

Lemma deleteManyBlog_deletes_by_ids_witness :
  get_prop (body delete_p1) "ids" = Ret (VArr [VStr "p1"]) /\
  call RefStore.ref deleteMany
    [Blog RefStore.ref; obj1 "_id" (obj1 "$in" (VArr [VStr "p1"]))]
    two_posts
    = (Ret (VNum 1), [post "p2" "second" "carol"]) /\
  run (deleteManyBlog RefStore.ref) delete_p1 two_posts =
    (Ret tt,
     {| store := [post "p2" "second" "carol"];
        trace :=
          [Call deleteMany
             [Blog RefStore.ref; obj1 "_id" (obj1 "$in" (VArr [VStr "p1"]))];
           Reply success (obj1 "data" (VNum 1))] |}).
Proof.
  split; [reflexivity|]. split; [reflexivity|].
  exact (proj1
    (deleteManyBlog_deletes_by_ids RefStore.ref delete_p1 two_posts
       [post "p2" "second" "carol"] (VStr "p1") [] (VNum 1)
       eq_refl eq_refl)).
Defined.

Lemma bulkUpdate_without_filter_matches_all_witness :
  get_prop (body retitle_all) "filter" = Ret VUndef /\
  truthy VUndef = false /\
  Forall (fun ev => forall args, ev = Call bulkUpdate args ->
            exists payload,
              args = [Blog RefStore.ref; VObj ∅; payload])
    (trace (run (bulkUpdateBlog RefStore.ref) retitle_all two_posts).2).
Proof.
  split; [reflexivity|]. split; [reflexivity|].
  exact (bulkUpdate_without_filter_matches_all RefStore.ref retitle_all
           two_posts VUndef eq_refl eq_refl).
Defined.

Lemma bulkInsertBlog_inserts_stamped_witness :
  get_prop (body insert_two) "data"
    = Ret (VArr [obj1 "title" (VStr "third"); obj1 "title" (VStr "fourth")]) /\
  get_prop (user insert_two) "id" = Ret (VStr "alice") /\
  call RefStore.ref bulkInsert
    [Blog RefStore.ref;
     VArr (stamp (VStr "alice") <$>
             [obj1 "title" (VStr "third"); obj1 "title" (VStr "fourth")])]
    two_posts
    = (Ret (VArr (stamp (VStr "alice") <$>
                    [obj1 "title" (VStr "third");
                     obj1 "title" (VStr "fourth")])),
       (two_posts ++
        [<["addedBy" := VStr "alice"]> (<["title" := VStr "third"]> ∅);
         <["addedBy" := VStr "alice"]> (<["title" := VStr "fourth"]> ∅)])%list) /\
  store (run (bulkInsertBlog RefStore.ref) insert_two two_posts).2 =
    (two_posts ++
     [<["addedBy" := VStr "alice"]> (<["title" := VStr "third"]> ∅);
      <["addedBy" := VStr "alice"]> (<["title" := VStr "fourth"]> ∅)])%list.
Proof.
  split; [reflexivity|]. split; [reflexivity|]. split; [reflexivity|].
  exact (f_equal (fun x => store x.2)
    (bulkInsertBlog_inserts_stamped RefStore.ref insert_two two_posts _
       (obj1 "title" (VStr "third")) [obj1 "title" (VStr "fourth")]
       (VStr "alice") _ eq_refl eq_refl eq_refl)).
Defined.

Lemma partialUpdateBlog_updates_by_id_witness :
  truthy (param_id patch_p1) = true /\
  delete_prop (body patch_p1) "addedBy" = Ret (body patch_p1) /\
  get_prop (user patch_p1) "id" = Ret (VStr "alice") /\
  call RefStore.ref validateParamsWithJoi
    [VObj (<["updatedBy" := VStr "alice"]> (spread_obj (body patch_p1)));
     updateSchemaKeys RefStore.ref] two_posts
    = (Ret RefStore.valid, two_posts) /\
  accepted RefStore.valid /\
  store (run (partialUpdateBlog RefStore.ref) patch_p1 two_posts).2 =
    [<["updatedBy" := VStr "alice"]> (post "p1" "edited" "bob");
     post "p2" "second" "carol"] /\
  replies (trace (run (partialUpdateBlog RefStore.ref) patch_p1 two_posts).2)
    = 1%nat.
Proof.
  split; [reflexivity|]. split; [reflexivity|]. split; [reflexivity|].
  split; [reflexivity|]. split; [exact ref_accepts|].
  pose proof (partialUpdateBlog_updates_by_id RefStore.ref patch_p1
                two_posts two_posts
                [<["updatedBy" := VStr "alice"]> (post "p1" "edited" "bob");
                 post "p2" "second" "carol"]
                (body patch_p1) (VStr "alice") RefStore.valid
                (VObj (<["updatedBy" := VStr "alice"]>
                         (post "p1" "edited" "bob")))
                eq_refl eq_refl eq_refl eq_refl ref_accepts eq_refl) as H.
  rewrite H. split; reflexivity.
Defined.

Lemma bulkUpdateBlog_updates_filtered_witness :
  get_prop (body retitle_p2) "filter" = Ret (obj1 "_id" (VStr "p2")) /\
  truthy (obj1 "_id" (VStr "p2")) = true /\
  get_prop (body retitle_p2) "data" = Ret (obj1 "title" (VStr "renamed")) /\
  is_object (obj1 "title" (VStr "renamed")) = true /\
  get_prop (user retitle_p2) "id" = Ret (VStr "alice") /\
  store (run (bulkUpdateBlog RefStore.ref) retitle_p2 two_posts).2 =
    [post "p1" "first" "bob";
     <["updatedBy" := VStr "alice"]> (post "p2" "renamed" "carol")].
Proof.
  split; [reflexivity|]. split; [reflexivity|]. split; [reflexivity|].
  split; [reflexivity|]. split; [reflexivity|].
  exact (f_equal (fun x => store x.2)
    (bulkUpdateBlog_updates_filtered RefStore.ref retitle_p2 two_posts
       [post "p1" "first" "bob";
        <["updatedBy" := VStr "alice"]> (post "p2" "renamed" "carol")]
       (obj1 "_id" (VStr "p2")) (obj1 "title" (VStr "renamed"))
       (VStr "alice") (VNum 1)
       eq_refl eq_refl eq_refl eq_refl eq_refl eq_refl)).
Defined.
